(** * Businesses and reviews: the request handlers of [main.py]

    A shallow embedding of the eleven Flask handlers of [main.py] over a
    functional model of the Datastore client they share, and the
    consistency properties of the record service: validation, the
    one-review-per-(user, business) rule, partial and full updates, and
    the cascade from a business to its reviews. *)

From stdpp Require Import gmap strings list fin_maps.

#[local] Open Scope Z_scope.

(** ** JSON values

    What [request.get_json()] yields for a property and what
    [jsonify] writes back.  Python's [int] is [Z]; a [float] is held as
    its 64 IEEE bits, the handlers never compute on it.  Nested arrays
    and objects are carried as they were decoded. *)

#[warnings="-register-all"]
Inductive json : Type :=
| JNull
| JBool (b : bool)
| JInt (z : Z)
| JFloat (bits : Z)
| JStr (s : string)
| JArr (xs : list json)
| JObj (kvs : list (string * json)).

Fixpoint json_eqb (x y : json) {struct x} : bool :=
  match x, y with
  | JNull, JNull => true
  | JBool a, JBool b => bool_decide (a = b)
  | JInt a, JInt b => bool_decide (a = b)
  | JFloat a, JFloat b => bool_decide (a = b)
  | JStr a, JStr b => bool_decide (a = b)
  | JArr xs, JArr ys =>
      (fix go (xs ys : list json) {struct xs} : bool :=
         match xs, ys with
         | [], [] => true
         | x :: xs, y :: ys => json_eqb x y && go xs ys
         | _, _ => false
         end) xs ys
  | JObj xs, JObj ys =>
      (fix go (xs ys : list (string * json)) {struct xs} : bool :=
         match xs, ys with
         | [], [] => true
         | (k, x) :: xs, (l, y) :: ys =>
             bool_decide (k = l) && json_eqb x y && go xs ys
         | _, _ => false
         end) xs ys
  | _, _ => false
  end.

Fixpoint json_size (x : json) : nat :=
  match x with
  | JArr xs => S (list_sum (map json_size xs))
  | JObj kvs => S (list_sum (map (fun kv => json_size (snd kv)) kvs))
  | _ => 1%nat
  end.

Lemma json_size_elem (xs : list json) (x : json) :
  x ∈ xs -> (json_size x < S (list_sum (map json_size xs)))%nat.
Proof.
  induction xs as [|a xs IH]; intros Hx; [inversion Hx|].
  apply elem_of_cons in Hx as [->|Hx]; simpl; [lia|].
  specialize (IH Hx). lia.
Qed.

Lemma json_size_member (kvs : list (string * json)) (kv : string * json) :
  kv ∈ kvs ->
  (json_size (snd kv) < S (list_sum (map (fun kv => json_size (snd kv)) kvs)))%nat.
Proof.
  induction kvs as [|a kvs IH]; intros Hx; [inversion Hx|].
  apply elem_of_cons in Hx as [->|Hx]; simpl; [lia|].
  specialize (IH Hx). lia.
Qed.

Lemma json_eqb_eq (x y : json) : json_eqb x y = true <-> x = y.
Proof.
  remember (json_size x) as n eqn:Hn.
  revert x y Hn. induction n as [n IH] using lt_wf_ind. intros x y Hn.
  destruct x, y; simpl; try (split; [discriminate | congruence]);
    try (rewrite bool_decide_eq_true; split; congruence).
  - split; auto.
  - assert (forall x, x ∈ xs -> (json_size x < n)%nat) as Hlt
      by (intros x Hx; subst n; by apply json_size_elem).
    clear Hn. revert xs0.
    induction xs as [|a xs IHxs]; intros [|b ys];
      try (split; [discriminate | congruence]); [split; auto|].
    rewrite andb_true_iff, (IH (json_size a) (Hlt a ltac:(left)) a b eq_refl).
    rewrite IHxs by (intros z Hz; apply Hlt; by right).
    split; [intros [-> [= ->]]; reflexivity | intros [= -> ->]; auto].
  - assert (forall kv, kv ∈ kvs -> (json_size (snd kv) < n)%nat) as Hlt
      by (intros x Hx; subst n; by apply json_size_member).
    clear Hn. revert kvs0.
    induction kvs as [|[k a] xs IHxs]; intros [|[l b] ys];
      try (split; [discriminate | congruence]); [split; auto|].
    rewrite !andb_true_iff, bool_decide_eq_true.
    rewrite (IH (json_size a) (Hlt (k, a) ltac:(left)) a b eq_refl).
    rewrite IHxs by (intros z Hz; apply Hlt; by right).
    split; [intros [[-> ->] [= ->]]; reflexivity | intros [= -> -> ->]; auto].
Qed.

#[global] Instance json_eq_dec : EqDecision json.
Proof.
  intros x y. destruct (json_eqb x y) eqn:E.
  - left. by apply json_eqb_eq.
  - right. intros H. apply json_eqb_eq in H. congruence.
Defined.

(** ** The Datastore client

    [main.py] keeps its records in Google Datastore through
    [google.cloud.datastore], which is not part of the repository.  The
    client is modelled with the interface the spec requires of the
    storage collaborator: [Put(entity)->id], [Get(kind,id)->entity|absent],
    [QueryEqual(kind, field, value)->list] and [Delete(kind,id)]. *)

(** The two kinds [main.py] uses: ['Business'] and ['Review']. *)
Inductive Kind : Type := Business | Review.

#[global] Instance Kind_eq_dec : EqDecision Kind.
Proof. solve_decision. Defined.

(** Modelled from the spec: the state of the storage collaborator.  The
    entities of a kind are held under their integer ids; an entity is a
    dictionary of properties. *)
Record Store : Type := MkStore {
  businesses : gmap Z (gmap string json);
  reviews : gmap Z (gmap string json)
}.

Definition empty_store : Store := MkStore ∅ ∅.

Definition kind_map (k : Kind) (s : Store) : gmap Z (gmap string json) :=
  match k with
  | Business => businesses s
  | Review => reviews s
  end.

Definition set_kind_map (k : Kind) (m : gmap Z (gmap string json)) (s : Store) : Store :=
  match k with
  | Business => MkStore m (reviews s)
  | Review => MkStore (businesses s) m
  end.

(** [client.key(kind)] is a partial key ([id_or_name = None]) that
    Datastore completes on [put]; [client.key(kind, v)] holds the value
    it was given. *)
Record Key : Type := MkKey {
  kind : Kind;
  id_or_name : option json
}.

Definition client_key (k : Kind) (v : option json) : Key := MkKey k v.

(** Modelled from the spec: the integer id a key designates.  Every
    entity of this program is written under a generated integer id, so
    a key built from any other value designates no stored entity
    ([Get(kind,id)->entity|absent]). *)
Definition stored_id (key : Key) : option Z :=
  match id_or_name key with
  | Some (JInt z) => Some z
  | _ => None
  end.

(** [key.id] as [jsonify] renders it: the integer id, [None] otherwise. *)
Definition key_id (key : Key) : json :=
  match stored_id key with
  | Some z => JInt z
  | None => JNull
  end.

(** [datastore.Entity]: a dictionary that carries its key. *)
Record Entity : Type := MkEntity {
  entity_key : Key;
  props : gmap string json
}.

Definition new_entity (key : Key) : Entity := MkEntity key ∅.

(** [entity.update(d)]: the entries of [d] replace or extend those of
    the entity. *)
Definition update (e : Entity) (d : gmap string json) : Entity :=
  MkEntity (entity_key e) (d ∪ props e).

(** [entity[f] = v] *)
Definition setitem (e : Entity) (f : string) (v : json) : Entity :=
  MkEntity (entity_key e) (<[f := v]> (props e)).

(** [f in d] *)
Definition contains (d : gmap string json) (f : string) : bool :=
  match d !! f with
  | Some _ => true
  | None => false
  end.

(** The writes a handler sends to Datastore, in the order it sends
    them, and (modelled from the spec: [Put] and [Delete]) what a write
    does to the store. *)
Inductive Write : Type :=
| WPut (key : Key) (p : gmap string json)
| WDelete (key : Key).

Definition apply_write (s : Store) (w : Write) : Store :=
  match w with
  | WPut key p =>
      match stored_id key with
      | Some z => set_kind_map (kind key) (<[z := p]> (kind_map (kind key) s)) s
      | None => s
      end
  | WDelete key =>
      match stored_id key with
      | Some z => set_kind_map (kind key) (delete z (kind_map (kind key) s)) s
      | None => s
      end
  end.

(** ** Handlers as state transformers

    A handler reads and writes the store through the client, may stop on
    an uncaught [KeyError] or [ValueError] (Flask answers 500), and otherwise returns a
    value.  [final] is the store it leaves, [trace] the writes it made. *)

Inductive Exn : Type := KeyError (f : string) | ValueError.

Record Run (A : Type) : Type := MkRun {
  outcome : Exn + A;
  final : Store;
  trace : list Write
}.
Arguments MkRun {A} _ _ _.
Arguments outcome {A} _.
Arguments final {A} _.
Arguments trace {A} _.

Definition M (A : Type) : Type := Store -> Run A.

Definition ret {A : Type} (a : A) : M A := fun s => MkRun (inr a) s [].

Definition raise {A : Type} (e : Exn) : M A := fun s => MkRun (inl e) s [].

Definition bind {A B : Type} (m : M A) (f : A -> M B) : M B := fun s =>
  let r := m s in
  match outcome r with
  | inl e => MkRun (inl e) (final r) (trace r)
  | inr a =>
      let r' := f a (final r) in
      MkRun (outcome r') (final r') (trace r ++ trace r')
  end.

Notation "x <- m ;; k" := (bind m (fun x => k))
  (at level 100, m at next level, right associativity).
Notation "m ;; k" := (bind m (fun _ => k))
  (at level 100, right associativity).

(** [for x in xs: body(x)] *)
Fixpoint for_each {A : Type} (xs : list A) (body : A -> M unit) : M unit :=
  match xs with
  | [] => ret tt
  | x :: xs => body x ;; for_each xs body
  end.

(** [[f(x) for x in xs]], stopping at the first exception. *)
Fixpoint map_each {A B : Type} (xs : list A) (f : A -> M B) : M (list B) :=
  match xs with
  | [] => ret []
  | x :: xs => y <- f x ;; ys <- map_each xs f ;; ret (y :: ys)
  end.

(** [d[f]] *)
Definition getitem (d : gmap string json) (f : string) : M json :=
  match d !! f with
  | Some v => ret v
  | None => raise (KeyError f)
  end.

(** The dictionary display [{f: d[f], ...}] over the fields [fs],
    evaluated from left to right. *)
Fixpoint project (d : gmap string json) (fs : list string) : M (gmap string json) :=
  match fs with
  | [] => ret ∅
  | f :: fs => v <- getitem d f ;; rest <- project d fs ;; ret (<[f := v]> rest)
  end.

(** Modelled from the spec: [client.get(key)] is [Get(kind,id)], the
    entity or [None]. *)
Definition client_get (key : Key) : M (option Entity) := fun s =>
  ret (z ← stored_id key; MkEntity key <$> kind_map (kind key) s !! z) s.

(** Modelled from the spec: [client.put(entity)] for an entity whose
    key is complete is [Put(entity)] under that key. *)
Definition client_put (e : Entity) : M unit := fun s =>
  let w := WPut (entity_key e) (props e) in
  MkRun (inr tt) (apply_write s w) [w].

(** Modelled from the spec: [client.put(entity)] for a new entity,
    whose key is partial, is [Put(entity)->id]: Datastore assigns the
    id, [new_id] in this request, and completes the key of the entity. *)
Definition client_put_new (new_id : Z) (e : Entity) : M Entity :=
  let e := MkEntity (MkKey (kind (entity_key e)) (Some (JInt new_id))) (props e) in
  client_put e ;;
  ret e.

(** Modelled from the spec: [client.delete(key)] is [Delete(kind,id)]. *)
Definition client_delete (key : Key) : M unit := fun s =>
  let w := WDelete key in
  MkRun (inr tt) (apply_write s w) [w].

(** [client.query(kind=k)] followed by [add_filter(f, '=', v)] calls:
    the handlers only filter on equality. *)
Record Query : Type := MkQuery {
  q_kind : Kind;
  q_filters : list (string * json)
}.

Definition client_query (k : Kind) : Query := MkQuery k [].

Definition add_filter (q : Query) (f : string) (v : json) : Query :=
  MkQuery (q_kind q) (q_filters q ++ [(f, v)]).

Definition matches (q : Query) (p : gmap string json) : bool :=
  forallb (fun fv => bool_decide (p !! fst fv = Some (snd fv))) (q_filters q).

(** Modelled from the spec: [list(query.fetch())] is [QueryEqual], the
    entities of the kind whose properties equal the filters' values, in
    the order Datastore enumerates the kind. *)
Definition fetch (q : Query) : M (list Entity) := fun s =>
  ret (map (fun ip => MkEntity (MkKey (q_kind q) (Some (JInt (fst ip)))) (snd ip))
         (filter (fun ip => matches q (snd ip) = true)
            (map_to_list (kind_map (q_kind q) s)))) s.

(** [if not entity: ...]: [None] and an entity without properties are
    false; otherwise the handler goes on with the entity. *)
Definition truthy (o : option Entity) : option Entity :=
  match o with
  | Some e => if bool_decide (props e = ∅) then None else Some e
  | None => None
  end.

(** ** Responses *)

Inductive Body : Type :=
| BDict (d : gmap string json)
| BList (l : list (gmap string json))
| BText (t : string).

Record Response : Type := MkResponse {
  body : Body;
  status : Z
}.

Definition jsonify (d : gmap string json) (code : Z) : Response :=
  MkResponse (BDict d) code.

Definition jsonify_list (l : list (gmap string json)) (code : Z) : Response :=
  MkResponse (BList l) code.

Definition error (msg : string) (code : Z) : Response :=
  jsonify {[ "Error" := JStr msg ]} code.

Definition missing_attributes : string :=
  "The request body is missing at least one of the required attributes".
Definition no_business : string := "No business with this business_id exists".
Definition no_review : string := "No review with this review_id exists".
Definition already_reviewed : string :=
  "You have already submitted a review for this business. You can update your previous review, or delete it and submit a new review".

Definition required_business : list string :=
  ["owner_id"; "name"; "street_address"; "city"; "state"; "zip_code"].
Definition required_review : list string := ["user_id"; "business_id"; "stars"].

(** The response dictionary every business handler builds. *)
Definition business_dict (business : Entity) : M (gmap string json) :=
  d <- project (props business) required_business ;;
  ret (<["id" := key_id (entity_key business)]> d).

(** The response dictionary every review handler builds: [review_text]
    is added only when the entity has it. *)
Definition review_dict (review : Entity) : M (gmap string json) :=
  d <- project (props review) required_review ;;
  let response := <["id" := key_id (entity_key review)]> d in
  if contains (props review) "review_text" then
    t <- getitem (props review) "review_text" ;;
    ret (<["review_text" := t]> response)
  else ret response.

(** ** The handlers

    [content] is the JSON object of the request body; the ids of the
    routes are the integers Flask's [<int:...>] converter parsed. *)

(** [POST /businesses] *)
Definition create_business (new_id : Z) (content : gmap string json) : M Response :=
  if negb (forallb (contains content) required_business) then
    ret (error missing_attributes 400)
  else
    let key := client_key Business None in
    let business := new_entity key in
    fields <- project content required_business ;;
    let business := update business fields in
    business <- client_put_new new_id business ;;
    response <- business_dict business ;;
    ret (jsonify response 201).

(** [GET /businesses/<int:business_id>] *)
Definition get_business (business_id : Z) : M Response :=
  let key := client_key Business (Some (JInt business_id)) in
  business <- client_get key ;;
  match truthy business with
  | None => ret (error no_business 404)
  | Some business =>
      response <- business_dict business ;;
      ret (jsonify response 200)
  end.

(** [GET /businesses] *)
Definition list_businesses : M Response :=
  let query := client_query Business in
  results <- fetch query ;;
  businesses <- map_each results business_dict ;;
  ret (jsonify_list businesses 200).

(** [PUT /businesses/<int:business_id>] *)
Definition edit_business (business_id : Z) (content : gmap string json) : M Response :=
  if negb (forallb (contains content) required_business) then
    ret (error missing_attributes 400)
  else
    let key := client_key Business (Some (JInt business_id)) in
    business <- client_get key ;;
    match truthy business with
    | None => ret (error no_business 404)
    | Some business =>
        fields <- project content required_business ;;
        let business := update business fields in
        client_put business ;;
        response <- business_dict business ;;
        ret (jsonify response 200)
    end.

(** [DELETE /businesses/<int:business_id>] *)
Definition delete_business (business_id : Z) : M Response :=
  let key := client_key Business (Some (JInt business_id)) in
  business <- client_get key ;;
  match truthy business with
  | None => ret (error no_business 404)
  | Some _ =>
      let query := client_query Review in
      let query := add_filter query "business_id" (JInt business_id) in
      reviews <- fetch query ;;
      for_each reviews (fun review => client_delete (entity_key review)) ;;
      client_delete key ;;
      ret (MkResponse (BText EmptyString) 204)
  end.

(** [GET /owners/<int:owner_id>/businesses] *)
Definition list_owner_businesses (owner_id : Z) : M Response :=
  let query := client_query Business in
  let query := add_filter query "owner_id" (JInt owner_id) in
  results <- fetch query ;;
  businesses <- map_each results business_dict ;;
  ret (jsonify_list businesses 200).

(** [POST /reviews] *)
Definition create_review (new_id : Z) (content : gmap string json) : M Response :=
  if negb (forallb (contains content) required_review) then
    ret (error missing_attributes 400)
  else
    business_id <- getitem content "business_id" ;;
    let business_key := client_key Business (Some business_id) in
    business <- client_get business_key ;;
    match truthy business with
    | None => ret (error no_business 404)
    | Some _ =>
        let query := client_query Review in
        user_id <- getitem content "user_id" ;;
        let query := add_filter query "user_id" user_id in
        business_id <- getitem content "business_id" ;;
        let query := add_filter query "business_id" business_id in
        existing_reviews <- fetch query ;;
        match existing_reviews with
        | _ :: _ => ret (error already_reviewed 409)
        | [] =>
            let key := client_key Review None in
            let review := new_entity key in
            fields <- project content required_review ;;
            let review := update review fields in
            review <-
              (if contains content "review_text" then
                 t <- getitem content "review_text" ;;
                 ret (setitem review "review_text" t)
               else ret review) ;;
            review <- client_put_new new_id review ;;
            response <- review_dict review ;;
            ret (jsonify response 201)
        end
    end.

(** [GET /reviews/<int:review_id>] *)
Definition get_review (review_id : Z) : M Response :=
  let key := client_key Review (Some (JInt review_id)) in
  review <- client_get key ;;
  match truthy review with
  | None => ret (error no_review 404)
  | Some review =>
      response <- review_dict review ;;
      ret (jsonify response 200)
  end.

(** [PUT /reviews/<int:review_id>] *)
Definition edit_review (review_id : Z) (content : gmap string json) : M Response :=
  if negb (contains content "stars") then
    ret (error missing_attributes 400)
  else
    let key := client_key Review (Some (JInt review_id)) in
    review <- client_get key ;;
    match truthy review with
    | None => ret (error no_review 404)
    | Some review =>
        stars <- getitem content "stars" ;;
        let review := setitem review "stars" stars in
        review <-
          (if contains content "review_text" then
             t <- getitem content "review_text" ;;
             ret (setitem review "review_text" t)
           else ret review) ;;
        client_put review ;;
        response <- review_dict review ;;
        ret (jsonify response 200)
    end.

(** [DELETE /reviews/<int:review_id>] *)
Definition delete_review (review_id : Z) : M Response :=
  let key := client_key Review (Some (JInt review_id)) in
  review <- client_get key ;;
  match truthy review with
  | None => ret (error no_review 404)
  | Some _ =>
      client_delete key ;;
      ret (MkResponse (BText EmptyString) 204)
  end.

(** [GET /users/<int:user_id>/reviews] *)
Definition list_user_reviews (user_id : Z) : M Response :=
  let query := client_query Review in
  let query := add_filter query "user_id" (JInt user_id) in
  results <- fetch query ;;
  reviews <- map_each results review_dict ;;
  ret (jsonify_list reviews 200).

(** ** Routing and sequential execution *)

Inductive Request : Type :=
| PostBusinesses (content : gmap string json)
| GetBusiness (business_id : Z)
| GetBusinesses
| PutBusiness (business_id : Z) (content : gmap string json)
| DeleteBusiness (business_id : Z)
| GetOwnerBusinesses (owner_id : Z)
| PostReviews (content : gmap string json)
| GetReview (review_id : Z)
| PutReview (review_id : Z) (content : gmap string json)
| DeleteReview (review_id : Z)
| GetUserReviews (user_id : Z).

(** [app.route]: [new_id] is the id Datastore assigns if the request
    creates an entity. *)
Definition handle (new_id : Z) (req : Request) : M Response :=
  match req with
  | PostBusinesses content => create_business new_id content
  | GetBusiness business_id => get_business business_id
  | GetBusinesses => list_businesses
  | PutBusiness business_id content => edit_business business_id content
  | DeleteBusiness business_id => delete_business business_id
  | GetOwnerBusinesses owner_id => list_owner_businesses owner_id
  | PostReviews content => create_review new_id content
  | GetReview review_id => get_review review_id
  | PutReview review_id content => edit_review review_id content
  | DeleteReview review_id => delete_review review_id
  | GetUserReviews user_id => list_user_reviews user_id
  end.

(** The id Datastore generates is not in use for the kind it is
    generated for. *)
Definition unused_id (new_id : Z) (req : Request) (s : Store) : Prop :=
  match req with
  | PostBusinesses _ => businesses s !! new_id = None
  | PostReviews _ => reviews s !! new_id = None
  | _ => True
  end.

(** The stores the service can be in: requests handled one after the
    other, starting from the empty store. *)
Inductive reachable : Store -> Prop :=
| reachable_empty : reachable empty_store
| reachable_handle (s : Store) (new_id : Z) (req : Request) :
    reachable s -> unused_id new_id req s ->
    reachable (final (handle new_id req s)).

(** ** Predicates of the data model *)

(** A stored business has the six required properties, a stored review
    its three. *)
Definition has_fields (fs : list string) (p : gmap string json) : Prop :=
  forallb (contains p) fs = true.

Definition store_ok (s : Store) : Prop :=
  map_Forall (fun _ p => has_fields required_business p) (businesses s) /\
  map_Forall (fun _ p => has_fields required_review p) (reviews s).

(** At most one review for a (user_id, business_id) pair. *)
Definition unique_reviews (s : Store) : Prop :=
  forall (i j : Z) (ri rj : gmap string json),
    reviews s !! i = Some ri -> reviews s !! j = Some rj ->
    ri !! "user_id" = rj !! "user_id" ->
    ri !! "business_id" = rj !! "business_id" ->
    i = j.

(** The (user_id, business_id) pair is already taken by a stored review. *)
Definition reviewed (s : Store) (user_id business_id : json) : Prop :=
  exists (i : Z) (r : gmap string json),
    reviews s !! i = Some r /\
    r !! "user_id" = Some user_id /\ r !! "business_id" = Some business_id.

(** The business a JSON value refers to, if there is one. *)
Definition business_of (s : Store) (v : json) : option (gmap string json) :=
  match v with
  | JInt z => businesses s !! z
  | _ => None
  end.

(** The dictionary [project] builds when no [KeyError] stops it. *)
Definition restrict (fs : list string) (d : gmap string json) : gmap string json :=
  foldr (fun f acc => match d !! f with Some v => <[f := v]> acc | None => acc end) ∅ fs.

(** What the caller sees: the status of the response, 500 for an
    uncaught exception. *)
Definition status_code (r : Run Response) : Z :=
  match outcome r with
  | inr resp => status resp
  | inl _ => 500
  end.

(** The field [f] of a response body. *)
Definition body_field (resp : Response) (f : string) : option json :=
  match body resp with
  | BDict d => d !! f
  | _ => None
  end.

(** The entities a query selects from a kind. *)
Definition selected (q : Query) (m : gmap Z (gmap string json)) : list (Z * gmap string json) :=
  filter (fun ip => matches q (snd ip) = true) (map_to_list m).

(** ** Definitions the properties are stated with *)

(** What [if not entity] takes for a missing entity: none was found, or
    one without properties. *)
Definition absent (o : option (gmap string json)) : Prop :=
  o = None \/ o = Some ∅.

(** A computation that only reads: it leaves the store as it found it and
    writes nothing. *)
Definition read_only {A : Type} (m : M A) : Prop :=
  forall s, final (m s) = s /\ trace (m s) = [].

(** The body a business handler answers for the properties [p] stored
    under [id], and the one a review handler answers. *)
Definition business_view (id : Z) (p : gmap string json) : gmap string json :=
  <["id" := JInt id]> (restrict required_business p).

Definition review_view (id : Z) (p : gmap string json) : gmap string json :=
  let d := <["id" := JInt id]> (restrict required_review p) in
  match p !! "review_text" with
  | Some t => <["review_text" := t]> d
  | None => d
  end.

(** The reviews the cascade of [delete_business] selects. *)
Definition reviews_of (business_id : Z) (s : Store) : list (Z * gmap string json) :=
  selected (add_filter (client_query Review) "business_id" (JInt business_id)) (reviews s).

(** The properties [create_review] stores for a payload, and those
    [edit_review] stores over the review [r] for a payload whose
    [stars] is [v]. *)
Definition review_props (content : gmap string json) : gmap string json :=
  match content !! "review_text" with
  | Some t => <["review_text" := t]> (restrict required_review content)
  | None => restrict required_review content
  end.

Definition edited (content : gmap string json) (v : json) (r : gmap string json) :
    gmap string json :=
  match content !! "review_text" with
  | Some t => <["review_text" := t]> (<["stars" := v]> r)
  | None => <["stars" := v]> r
  end.

(** The six ways a handler changes the store, with what the handler has
    checked before it writes. *)
Inductive transition (s : Store) : Store -> Prop :=
| t_none : transition s s
| t_put_business (id : Z) (p : gmap string json) :
    has_fields required_business p ->
    transition s (MkStore (<[id := p]> (businesses s)) (reviews s))
| t_delete_business (id : Z) :
    transition s
      (MkStore (delete id (businesses s))
         (filter (fun ip => snd ip !! "business_id" <> Some (JInt id)) (reviews s)))
| t_new_review (id : Z) (content : gmap string json) (u bv : json) :
    has_fields required_review content ->
    content !! "user_id" = Some u -> content !! "business_id" = Some bv ->
    ~ reviewed s u bv ->
    transition s (MkStore (businesses s) (<[id := review_props content]> (reviews s)))
| t_edit_review (id : Z) (content : gmap string json) (v : json) (r : gmap string json) :
    reviews s !! id = Some r ->
    transition s (MkStore (businesses s) (<[id := edited content v r]> (reviews s)))
| t_delete_review (id : Z) :
    transition s (MkStore (businesses s) (delete id (reviews s))).

#[global] Instance has_fields_dec (fs : list string) (p : gmap string json) :
  Decision (has_fields fs p).
Proof. unfold has_fields. apply _. Defined.

#[global] Instance store_ok_dec (s : Store) : Decision (store_ok s).
Proof. unfold store_ok. apply _. Defined.

(** ** Example data *)

Definition acme : gmap string json :=
  {[ "owner_id" := JInt 1; "name" := JStr "Acme"; "street_address" := JStr "1 Main St";
     "city" := JStr "Corvallis"; "state" := JStr "OR"; "zip_code" := JStr "97330" ]}.

Definition praise : gmap string json :=
  {[ "user_id" := JInt 9; "business_id" := JInt 7; "stars" := JInt 5;
     "review_text" := JStr "great" ]}.

Definition one_business : Store := MkStore {[ 7 := acme ]} ∅.

Definition one_review : Store := MkStore {[ 7 := acme ]} {[ 3 := praise ]}.

(** ** Definitions the further properties are stated with *)

(** Every stored review refers, by an integer [business_id], to a
    stored business. *)
Definition refs_ok (s : Store) : Prop :=
  forall (i : Z) (r : gmap string json),
    reviews s !! i = Some r ->
    exists z : Z, r !! "business_id" = Some (JInt z) /\ is_Some (businesses s !! z).

(** The statuses of the [return] statements of each handler. *)
Definition statuses (req : Request) : list Z :=
  match req with
  | PostBusinesses _ => [201; 400]
  | GetBusiness _ => [200; 404]
  | GetBusinesses => [200]
  | PutBusiness _ _ => [200; 400; 404]
  | DeleteBusiness _ => [204; 404]
  | GetOwnerBusinesses _ => [200]
  | PostReviews _ => [201; 400; 404; 409]
  | GetReview _ => [200; 404]
  | PutReview _ _ => [200; 400; 404]
  | DeleteReview _ => [204; 404]
  | GetUserReviews _ => [200]
  end.

(** What handling a request comes to: the status the caller sees, the
    store left and the writes made.  A request either writes nothing, or
    it is one of the six writing requests, past its checks. *)
Inductive effect (s : Store) : Request -> Z -> Store -> list Write -> Prop :=
| e_none (req : Request) (c : Z) : effect s req c s []
| e_create_business (id : Z) (content : gmap string json) :
    has_fields required_business content ->
    effect s (PostBusinesses content) 201
      (MkStore (<[id := restrict required_business content]> (businesses s)) (reviews s))
      [WPut (MkKey Business (Some (JInt id))) (restrict required_business content)]
| e_edit_business (id : Z) (content b : gmap string json) :
    has_fields required_business content ->
    businesses s !! id = Some b ->
    effect s (PutBusiness id content) 200
      (MkStore (<[id := restrict required_business content ∪ b]> (businesses s)) (reviews s))
      [WPut (MkKey Business (Some (JInt id))) (restrict required_business content ∪ b)]
| e_delete_business (id : Z) (b : gmap string json) :
    businesses s !! id = Some b ->
    effect s (DeleteBusiness id) 204
      (MkStore (delete id (businesses s))
         (filter (fun ip => snd ip !! "business_id" <> Some (JInt id)) (reviews s)))
      (map (fun ip => WDelete (MkKey Review (Some (JInt (fst ip))))) (reviews_of id s)
         ++ [WDelete (MkKey Business (Some (JInt id)))])
| e_create_review (id : Z) (content : gmap string json) (u bv : json) (b : gmap string json) :
    has_fields required_review content ->
    content !! "user_id" = Some u -> content !! "business_id" = Some bv ->
    business_of s bv = Some b ->
    ~ reviewed s u bv ->
    effect s (PostReviews content) 201
      (MkStore (businesses s) (<[id := review_props content]> (reviews s)))
      [WPut (MkKey Review (Some (JInt id))) (review_props content)]
| e_edit_review (c id : Z) (content : gmap string json) (v : json) (r : gmap string json) :
    c = 200 \/ c = 500 ->
    content !! "stars" = Some v ->
    reviews s !! id = Some r ->
    effect s (PutReview id content) c
      (MkStore (businesses s) (<[id := edited content v r]> (reviews s)))
      [WPut (MkKey Review (Some (JInt id))) (edited content v r)]
| e_delete_review (id : Z) (r : gmap string json) :
    reviews s !! id = Some r ->
    effect s (DeleteReview id) 204 (MkStore (businesses s) (delete id (reviews s)))
      [WDelete (MkKey Review (Some (JInt id)))].

(** The requests of the [GET] routes. *)
Definition is_get (req : Request) : bool :=
  match req with
  | GetBusiness _ | GetBusinesses | GetOwnerBusinesses _ | GetReview _ | GetUserReviews _ =>
      true
  | _ => false
  end.

(** ** The limits of the Datastore client

    The storage collaborator of the spec never fails.  The client the
    handlers call does: [client.key] takes only a string or an integer
    for the id of a key, and what goes to Datastore as an integer, the
    id of a key, a property or the value of a filter, is an [int64].
    [Strict] holds the client with these limits and the handlers over
    it; within the limits its handlers are the handlers above. *)

(** [2^63] *)
Definition int64_bound : Z := 9223372036854775808.

Definition int64 (z : Z) : bool := (- int64_bound <=? z) && (z <? int64_bound).

(** The ids Datastore generates and a route can name an entity by. *)
Definition valid_id (z : Z) : Prop := 0 < z < int64_bound.

(** Every integer of a JSON value, nested ones too, is an [int64]. *)
Fixpoint fits (v : json) : bool :=
  match v with
  | JInt z => int64 z
  | JArr xs => forallb fits xs
  | JObj kvs => forallb (fun kv => fits (snd kv)) kvs
  | _ => true
  end.

(** The properties of an entity all fit, and so do the entities of a
    store. *)
Definition storable (p : gmap string json) : Prop :=
  map_Forall (fun _ v => fits v = true) p.

Definition store_fits (s : Store) : Prop :=
  map_Forall (fun _ p => storable p) (businesses s) /\
  map_Forall (fun _ p => storable p) (reviews s).

(** The values a payload has for the fields [fs] fit. *)
Definition fit (fs : list string) (d : gmap string json) : bool :=
  forallb (fun f => match d !! f with Some v => fits v | None => true end) fs.

#[global] Instance storable_dec (p : gmap string json) : Decision (storable p).
Proof. unfold storable. apply _. Defined.

#[global] Instance store_fits_dec (s : Store) : Decision (store_fits s).
Proof. unfold store_fits. apply _. Defined.

#[global] Instance valid_id_dec (z : Z) : Decision (valid_id z).
Proof. unfold valid_id. apply _. Defined.

Module Strict.

(** [client.key(kind, v)] for a value [v] of the payload: a string is
    the name of the key, an integer its id, and so is a boolean, which
    is an [int] in Python; for any other value [client.key] raises
    [ValueError]. *)
Definition key_of_value (k : Kind) (v : json) : M Key :=
  match v with
  | JInt _ | JStr _ | JBool _ => ret (client_key k (Some v))
  | _ => raise ValueError
  end.

(** The integer id a key designates: [True] is 1 and [False] is 0. *)
Definition stored_id (key : Key) : option Z :=
  match id_or_name key with
  | Some (JInt z) => Some z
  | Some (JBool b) => Some (if b then 1 else 0)
  | _ => None
  end.

(** [client.get(key)]: [ValueError] for an id that is not an [int64],
    otherwise the entity or [None]. *)
Definition client_get (key : Key) : M (option Entity) := fun s =>
  match stored_id key with
  | Some z =>
      if int64 z then ret (MkEntity key <$> kind_map (kind key) s !! z) s
      else raise ValueError s
  | None => ret None s
  end.

(** [client.put(entity)] with a complete key: [ValueError], and nothing
    written, when a property holds an integer that is not an [int64]. *)
Definition client_put (e : Entity) : M unit :=
  if bool_decide (storable (props e)) then client_put e else raise ValueError.

(** [client.put(entity)] with the partial key of a new entity, likewise;
    [new_id] is the id Datastore assigns when the put goes through. *)
Definition client_put_new (new_id : Z) (e : Entity) : M Entity :=
  if bool_decide (storable (props e)) then client_put_new new_id e else raise ValueError.

(** [list(query.fetch())]: [ValueError] when the value of a filter
    holds an integer that is not an [int64]. *)
Definition fetch (q : Query) : M (list Entity) :=
  if forallb (fun fv => fits (snd fv)) (q_filters q) then fetch q else raise ValueError.

(** [POST /businesses] *)
Definition create_business (new_id : Z) (content : gmap string json) : M Response :=
  if negb (forallb (contains content) required_business) then
    ret (error missing_attributes 400)
  else
    let key := client_key Business None in
    let business := new_entity key in
    fields <- project content required_business ;;
    let business := update business fields in
    business <- client_put_new new_id business ;;
    response <- business_dict business ;;
    ret (jsonify response 201).

(** [GET /businesses/<int:business_id>] *)
Definition get_business (business_id : Z) : M Response :=
  let key := client_key Business (Some (JInt business_id)) in
  business <- client_get key ;;
  match truthy business with
  | None => ret (error no_business 404)
  | Some business =>
      response <- business_dict business ;;
      ret (jsonify response 200)
  end.

(** [PUT /businesses/<int:business_id>] *)
Definition edit_business (business_id : Z) (content : gmap string json) : M Response :=
  if negb (forallb (contains content) required_business) then
    ret (error missing_attributes 400)
  else
    let key := client_key Business (Some (JInt business_id)) in
    business <- client_get key ;;
    match truthy business with
    | None => ret (error no_business 404)
    | Some business =>
        fields <- project content required_business ;;
        let business := update business fields in
        client_put business ;;
        response <- business_dict business ;;
        ret (jsonify response 200)
    end.

(** [DELETE /businesses/<int:business_id>] *)
Definition delete_business (business_id : Z) : M Response :=
  let key := client_key Business (Some (JInt business_id)) in
  business <- client_get key ;;
  match truthy business with
  | None => ret (error no_business 404)
  | Some _ =>
      let query := client_query Review in
      let query := add_filter query "business_id" (JInt business_id) in
      reviews <- fetch query ;;
      for_each reviews (fun review => client_delete (entity_key review)) ;;
      client_delete key ;;
      ret (MkResponse (BText EmptyString) 204)
  end.

(** [POST /reviews] *)
Definition create_review (new_id : Z) (content : gmap string json) : M Response :=
  if negb (forallb (contains content) required_review) then
    ret (error missing_attributes 400)
  else
    business_id <- getitem content "business_id" ;;
    business_key <- key_of_value Business business_id ;;
    business <- client_get business_key ;;
    match truthy business with
    | None => ret (error no_business 404)
    | Some _ =>
        let query := client_query Review in
        user_id <- getitem content "user_id" ;;
        let query := add_filter query "user_id" user_id in
        business_id <- getitem content "business_id" ;;
        let query := add_filter query "business_id" business_id in
        existing_reviews <- fetch query ;;
        match existing_reviews with
        | _ :: _ => ret (error already_reviewed 409)
        | [] =>
            let key := client_key Review None in
            let review := new_entity key in
            fields <- project content required_review ;;
            let review := update review fields in
            review <-
              (if contains content "review_text" then
                 t <- getitem content "review_text" ;;
                 ret (setitem review "review_text" t)
               else ret review) ;;
            review <- client_put_new new_id review ;;
            response <- review_dict review ;;
            ret (jsonify response 201)
        end
    end.

(** [GET /reviews/<int:review_id>] *)
Definition get_review (review_id : Z) : M Response :=
  let key := client_key Review (Some (JInt review_id)) in
  review <- client_get key ;;
  match truthy review with
  | None => ret (error no_review 404)
  | Some review =>
      response <- review_dict review ;;
      ret (jsonify response 200)
  end.

(** [PUT /reviews/<int:review_id>] *)
Definition edit_review (review_id : Z) (content : gmap string json) : M Response :=
  if negb (contains content "stars") then
    ret (error missing_attributes 400)
  else
    let key := client_key Review (Some (JInt review_id)) in
    review <- client_get key ;;
    match truthy review with
    | None => ret (error no_review 404)
    | Some review =>
        stars <- getitem content "stars" ;;
        let review := setitem review "stars" stars in
        review <-
          (if contains content "review_text" then
             t <- getitem content "review_text" ;;
             ret (setitem review "review_text" t)
           else ret review) ;;
        client_put review ;;
        response <- review_dict review ;;
        ret (jsonify response 200)
    end.

(** [DELETE /reviews/<int:review_id>] *)
Definition delete_review (review_id : Z) : M Response :=
  let key := client_key Review (Some (JInt review_id)) in
  review <- client_get key ;;
  match truthy review with
  | None => ret (error no_review 404)
  | Some _ =>
      client_delete key ;;
      ret (MkResponse (BText EmptyString) 204)
  end.

(** [GET /owners/<int:owner_id>/businesses] *)
Definition list_owner_businesses (owner_id : Z) : M Response :=
  let query := client_query Business in
  let query := add_filter query "owner_id" (JInt owner_id) in
  results <- fetch query ;;
  businesses <- map_each results business_dict ;;
  ret (jsonify_list businesses 200).

(** [GET /users/<int:user_id>/reviews] *)
Definition list_user_reviews (user_id : Z) : M Response :=
  let query := client_query Review in
  let query := add_filter query "user_id" (JInt user_id) in
  results <- fetch query ;;
  reviews <- map_each results review_dict ;;
  ret (jsonify_list reviews 200).

(** [app.route]; [list_businesses] fetches without a filter and calls
    neither [client.key] nor [client.get] nor [client.put]: it is the
    handler above. *)
Definition handle (new_id : Z) (req : Request) : M Response :=
  match req with
  | PostBusinesses content => create_business new_id content
  | GetBusiness business_id => get_business business_id
  | GetBusinesses => list_businesses
  | PutBusiness business_id content => edit_business business_id content
  | DeleteBusiness business_id => delete_business business_id
  | GetOwnerBusinesses owner_id => list_owner_businesses owner_id
  | PostReviews content => create_review new_id content
  | GetReview review_id => get_review review_id
  | PutReview review_id content => edit_review review_id content
  | DeleteReview review_id => delete_review review_id
  | GetUserReviews user_id => list_user_reviews user_id
  end.

(** A request within the limits: the ids it names and the id Datastore
    assigns are ids of Datastore, the values it would store or filter by
    fit, and a review is posted for an integer business id. *)
Definition within_limits (new_id : Z) (req : Request) : Prop :=
  valid_id new_id /\
  match req with
  | PostBusinesses content => fit required_business content = true
  | PutBusiness id content => valid_id id /\ fit required_business content = true
  | PostReviews content =>
      fit ("review_text" :: required_review) content = true /\
      forall bv, content !! "business_id" = Some bv -> exists z, bv = JInt z /\ valid_id z
  | PutReview id content => valid_id id /\ fit ["stars"; "review_text"] content = true
  | GetBusiness id | DeleteBusiness id | GetReview id | DeleteReview id => valid_id id
  | GetOwnerBusinesses id | GetUserReviews id => 0 <= id < int64_bound
  | GetBusinesses => True
  end.

(** The stores the service can be in when every request is within the
    limits. *)
Inductive reachable : Store -> Prop :=
| reachable_start : reachable empty_store
| reachable_step (s : Store) (new_id : Z) (req : Request) :
    reachable s -> unused_id new_id req s -> within_limits new_id req ->
    reachable (final (handle new_id req s)).

End Strict.

(** * Properties *)

(** ** The monad *)

Lemma run_eta {A : Type} (r : Run A) : MkRun (outcome r) (final r) (trace r) = r.
Proof. by destruct r. Qed.

Lemma bind_pure {A B : Type} (m : M A) (f : A -> M B) (a : A) (s : Store) :
  m s = MkRun (inr a) s [] -> bind m f s = f a s.
Proof. intros H. unfold bind. rewrite H. simpl. apply run_eta. Qed.

Lemma bind_step {A B : Type} (m : M A) (f : A -> M B) (a : A) (s s' : Store) (t : list Write) :
  m s = MkRun (inr a) s' t ->
  bind m f s = MkRun (outcome (f a s')) (final (f a s')) (t ++ trace (f a s')).
Proof. intros H. unfold bind. by rewrite H. Qed.

Lemma read_only_ret {A : Type} (a : A) : read_only (ret a).
Proof. by intros s. Qed.

Lemma read_only_raise {A : Type} (e : Exn) : read_only (raise (A := A) e).
Proof. by intros s. Qed.

Lemma read_only_bind {A B : Type} (m : M A) (f : A -> M B) :
  read_only m -> (forall a, read_only (f a)) -> read_only (bind m f).
Proof.
  intros Hm Hf s. unfold bind. destruct (Hm s) as [Hs Ht].
  destruct (outcome (m s)) as [e|a]; simpl; [done|].
  rewrite Hs, Ht. apply Hf.
Qed.

Lemma read_only_getitem (d : gmap string json) (f : string) : read_only (getitem d f).
Proof. unfold getitem. destruct (d !! f); [apply read_only_ret | apply read_only_raise]. Qed.

Lemma read_only_project (d : gmap string json) (fs : list string) : read_only (project d fs).
Proof.
  induction fs as [|f fs IH]; simpl; [apply read_only_ret|].
  apply read_only_bind; [apply read_only_getitem|]. intros v.
  apply read_only_bind; [apply IH|]. intros rest. apply read_only_ret.
Qed.

Lemma read_only_map_each {A B : Type} (xs : list A) (f : A -> M B) :
  (forall x, read_only (f x)) -> read_only (map_each xs f).
Proof.
  intros Hf. induction xs as [|x xs IH]; simpl; [apply read_only_ret|].
  apply read_only_bind; [apply Hf|]. intros y.
  apply read_only_bind; [apply IH|]. intros ys. apply read_only_ret.
Qed.

Lemma read_only_business_dict (e : Entity) : read_only (business_dict e).
Proof.
  unfold business_dict. apply read_only_bind; [apply read_only_project|].
  intros d. apply read_only_ret.
Qed.

Lemma read_only_review_dict (e : Entity) : read_only (review_dict e).
Proof.
  unfold review_dict. apply read_only_bind; [apply read_only_project|].
  intros d. destruct (contains (props e) "review_text"); [|apply read_only_ret].
  apply read_only_bind; [apply read_only_getitem|]. intros t. apply read_only_ret.
Qed.

Lemma read_only_client_get (key : Key) : read_only (client_get key).
Proof. by intros s. Qed.

Lemma read_only_fetch (q : Query) : read_only (fetch q).
Proof. by intros s. Qed.

(** ** Dictionaries *)

Lemma contains_true (d : gmap string json) (f : string) :
  contains d f = true <-> is_Some (d !! f).
Proof.
  unfold contains. destruct (d !! f); split; intros H; try done; by destruct H.
Qed.

Lemma contains_false (d : gmap string json) (f : string) :
  contains d f = false <-> d !! f = None.
Proof. unfold contains. by destruct (d !! f). Qed.

Lemma has_fields_lookup (fs : list string) (d : gmap string json) :
  has_fields fs d <-> forall f, f ∈ fs -> is_Some (d !! f).
Proof.
  unfold has_fields. rewrite forallb_forall. split; intros H f Hf.
  - apply contains_true, H. by apply list_elem_of_In.
  - apply contains_true, H. by apply list_elem_of_In.
Qed.

Lemma missing_field (fs : list string) (d : gmap string json) :
  forallb (contains d) fs = false <-> exists f, f ∈ fs /\ d !! f = None.
Proof.
  induction fs as [|f fs IH]; simpl.
  - split; [done|]. intros (f & Hf & _). inversion Hf.
  - rewrite andb_false_iff, IH, contains_false. split.
    + intros [H|(g & Hg & H)]; [exists f | exists g]; split; try done.
      * by left.
      * by right.
    + intros (g & Hg & H). apply elem_of_cons in Hg as [->|Hg]; [by left|].
      right. by exists g.
Qed.

Lemma lookup_restrict (fs : list string) (d : gmap string json) (f : string) :
  restrict fs d !! f = if decide (f ∈ fs) then d !! f else None.
Proof.
  induction fs as [|g fs IH]; simpl.
  - rewrite lookup_empty. destruct (decide (f ∈ [])) as [H|H]; [|done].
    by apply not_elem_of_nil in H.
  - destruct (decide (g = f)) as [->|Hne].
    + rewrite decide_True by (by left).
      destruct (d !! f) eqn:E; [by rewrite lookup_insert_eq|].
      rewrite IH. by destruct (decide (f ∈ fs)).
    + assert (restrict fs d !! f = if decide (f ∈ g :: fs) then d !! f else None) as H.
      { rewrite IH.
        destruct (decide (f ∈ fs)) as [Hin|Hin], (decide (f ∈ g :: fs)) as [Hin'|Hin'];
          try done.
        - exfalso. apply Hin'. by right.
        - apply elem_of_cons in Hin' as [->|?]; done. }
      destruct (d !! g); [by rewrite lookup_insert_ne|done].
Qed.

Lemma restrict_ext (fs : list string) (d1 d2 : gmap string json) :
  (forall f, f ∈ fs -> d1 !! f = d2 !! f) -> restrict fs d1 = restrict fs d2.
Proof.
  intros H. apply map_eq. intros f. rewrite !lookup_restrict.
  case_decide; [by apply H | done].
Qed.

Lemma restrict_idemp (fs : list string) (d : gmap string json) :
  restrict fs (restrict fs d) = restrict fs d.
Proof.
  apply restrict_ext. intros f Hf. rewrite lookup_restrict. by rewrite decide_True.
Qed.

Lemma restrict_union (fs : list string) (d p : gmap string json) :
  has_fields fs d -> restrict fs (restrict fs d ∪ p) = restrict fs d.
Proof.
  intros Hd. rewrite <- (restrict_idemp fs d) at 2. apply restrict_ext. intros f Hf.
  destruct (proj1 (has_fields_lookup fs d) Hd f Hf) as [v Hv].
  assert (restrict fs d !! f = Some v) as H by (by rewrite lookup_restrict, decide_True).
  rewrite H. by apply lookup_union_Some_l.
Qed.

Lemma has_fields_restrict (fs : list string) (d : gmap string json) :
  has_fields fs d -> has_fields fs (restrict fs d).
Proof.
  intros H. apply has_fields_lookup. intros f Hf.
  rewrite lookup_restrict, decide_True by done.
  by apply (proj1 (has_fields_lookup fs d) H).
Qed.

Lemma project_ok (fs : list string) (d : gmap string json) (s : Store) :
  has_fields fs d -> project d fs s = MkRun (inr (restrict fs d)) s [].
Proof.
  unfold has_fields. induction fs as [|f fs IH]; simpl; [done|].
  intros [Hf Hfs]%andb_true_iff. apply contains_true in Hf as [v Hv].
  unfold getitem. rewrite Hv.
  rewrite (bind_pure _ _ v) by done. rewrite (bind_pure _ _ _ _ (IH Hfs)). done.
Qed.

Lemma getitem_ok (d : gmap string json) (f : string) (v : json) (s : Store) :
  d !! f = Some v -> getitem d f s = MkRun (inr v) s [].
Proof. intros H. unfold getitem. by rewrite H. Qed.

Lemma has_fields_nonempty (f : string) (fs : list string) (d : gmap string json) :
  has_fields (f :: fs) d -> d ≠ ∅.
Proof.
  intros H ->. destruct (proj1 (has_fields_lookup _ _) H f) as [v Hv]; [by left|].
  by rewrite lookup_empty in Hv.
Qed.

(** ** The client *)

Lemma truthy_some (e : Entity) : props e ≠ ∅ -> truthy (Some e) = Some e.
Proof. intros H. unfold truthy. by rewrite bool_decide_eq_false_2. Qed.

Lemma truthy_absent (key : Key) (o : option (gmap string json)) :
  absent o -> truthy (MkEntity key <$> o) = None.
Proof. by intros [-> | ->]. Qed.

Lemma absent_dec (o : option (gmap string json)) :
  absent o \/ exists p, o = Some p /\ p ≠ ∅.
Proof.
  unfold absent. destruct o as [p|]; [|by left; left].
  destruct (decide (p = ∅)) as [->|Hne]; [by left; right|].
  right. by exists p.
Qed.

Lemma client_get_id (k : Kind) (id : Z) (s : Store) :
  client_get (client_key k (Some (JInt id))) s =
    MkRun (inr (MkEntity (client_key k (Some (JInt id))) <$> kind_map k s !! id)) s [].
Proof. done. Qed.

Lemma client_get_value (v : json) (s : Store) :
  client_get (client_key Business (Some v)) s =
    MkRun (inr (MkEntity (client_key Business (Some v)) <$> business_of s v)) s [].
Proof. by destruct v. Qed.

Lemma fetch_selected (q : Query) (s : Store) :
  fetch q s =
    MkRun (inr (map (fun ip => MkEntity (MkKey (q_kind q) (Some (JInt (fst ip)))) (snd ip))
                  (selected q (kind_map (q_kind q) s)))) s [].
Proof. done. Qed.

Lemma elem_of_selected (q : Query) (m : gmap Z (gmap string json)) (i : Z) (p : gmap string json) :
  (i, p) ∈ selected q m <-> m !! i = Some p /\ matches q p = true.
Proof.
  unfold selected. rewrite list_elem_of_filter, elem_of_map_to_list. simpl. tauto.
Qed.

Lemma selected_nil (q : Query) (m : gmap Z (gmap string json)) :
  selected q m = [] <-> forall i p, m !! i = Some p -> matches q p <> true.
Proof.
  split.
  - intros H i p Hp Hm.
    assert ((i, p) ∈ selected q m) as Hin by (by apply elem_of_selected).
    rewrite H in Hin. by apply not_elem_of_nil in Hin.
  - intros H. destruct (selected q m) as [|[i p] l] eqn:E; [done|].
    assert ((i, p) ∈ selected q m) as Hin by (rewrite E; by left).
    apply elem_of_selected in Hin as [Hp Hm]. by destruct (H i p Hp).
Qed.

Lemma matches_eq1 (k : Kind) (f : string) (v : json) (p : gmap string json) :
  matches (add_filter (client_query k) f v) p = true <-> p !! f = Some v.
Proof.
  unfold matches. simpl. by rewrite andb_true_r, bool_decide_eq_true.
Qed.

Lemma matches_eq2 (k : Kind) (f g : string) (v w : json) (p : gmap string json) :
  matches (add_filter (add_filter (client_query k) f v) g w) p = true <->
  p !! f = Some v /\ p !! g = Some w.
Proof.
  unfold matches. simpl. by rewrite andb_true_r, andb_true_iff, !bool_decide_eq_true.
Qed.

(** The cascade loop: one delete per selected review, in the order of
    the list. *)
Lemma for_each_delete (l : list (Z * gmap string json)) (s : Store) :
  for_each (map (fun ip => MkEntity (MkKey Review (Some (JInt (fst ip)))) (snd ip)) l)
    (fun review => client_delete (entity_key review)) s =
  MkRun (inr tt)
    (MkStore (businesses s) (foldl (fun m ip => delete (fst ip) m) (reviews s) l))
    (map (fun ip => WDelete (MkKey Review (Some (JInt (fst ip))))) l).
Proof.
  revert s. induction l as [|[i p] l IH]; intros s; simpl.
  - by destruct s.
  - erewrite bind_step by done. by rewrite IH.
Qed.

Lemma lookup_foldl_delete (l : list (Z * gmap string json)) (m : gmap Z (gmap string json)) (i : Z) :
  foldl (fun m ip => delete (fst ip) m) m l !! i =
    if decide (i ∈ l.*1) then None else m !! i.
Proof.
  revert m. induction l as [|[j p] l IH]; intros m.
  - simpl. destruct (decide (i ∈ [])) as [H|H]; [by apply not_elem_of_nil in H | done].
  - cbn [foldl fst]. rewrite IH, fmap_cons. cbn [fst].
    destruct (decide (i = j)) as [->|Hne].
    + rewrite lookup_delete_eq, (decide_True (P := j ∈ j :: l.*1)) by (by left).
      by destruct (decide (j ∈ l.*1)).
    + rewrite lookup_delete_ne by done.
      destruct (decide (i ∈ l.*1)) as [Hin|Hin].
      * by rewrite decide_True by (by right).
      * rewrite decide_False; [done|]. by intros [->|?]%elem_of_cons.
Qed.

Lemma foldl_delete_selected (q : Query) (m : gmap Z (gmap string json)) :
  foldl (fun m ip => delete (fst ip) m) m (selected q m) =
    filter (fun ip => matches q (snd ip) <> true) m.
Proof.
  apply map_eq. intros i. rewrite lookup_foldl_delete.
  destruct (m !! i) as [p|] eqn:Hp.
  - destruct (decide (matches q p = true)) as [Hm|Hm].
    + rewrite decide_True.
      * symmetry. apply map_lookup_filter_None. right. intros p' Hp'. simpl.
        rewrite Hp in Hp'. injection Hp' as <-. intros Hn. by apply Hn.
      * apply list_elem_of_fmap. exists (i, p). split; [done|]. by apply elem_of_selected.
    + rewrite decide_False.
      * symmetry. by apply map_lookup_filter_Some.
      * intros ([j p'] & -> & Hin)%list_elem_of_fmap. simpl in *.
        apply elem_of_selected in Hin as [Hp' Hm']. congruence.
  - destruct (decide (i ∈ (selected q m).*1));
      symmetry; apply map_lookup_filter_None; by left.
Qed.

(** ** Response bodies *)

Lemma business_dict_ok (k : Kind) (id : Z) (p : gmap string json) (s : Store) :
  has_fields required_business p ->
  business_dict (MkEntity (MkKey k (Some (JInt id))) p) s =
    MkRun (inr (business_view id p)) s [].
Proof.
  intros H. unfold business_dict. by rewrite (bind_pure _ _ _ _ (project_ok _ _ _ H)).
Qed.

Lemma review_dict_ok (k : Kind) (id : Z) (p : gmap string json) (s : Store) :
  has_fields required_review p ->
  review_dict (MkEntity (MkKey k (Some (JInt id))) p) s =
    MkRun (inr (review_view id p)) s [].
Proof.
  intros H. unfold review_dict, review_view, contains, getitem.
  rewrite (bind_pure _ _ _ _ (project_ok _ _ _ H)). cbn [props entity_key].
  by destruct (p !! "review_text").
Qed.

Lemma client_put_run (e : Entity) (s : Store) :
  client_put e s = MkRun (inr tt) (apply_write s (WPut (entity_key e) (props e)))
                     [WPut (entity_key e) (props e)].
Proof. done. Qed.

Lemma client_put_new_run (new_id : Z) (k : Kind) (p : gmap string json) (s : Store) :
  client_put_new new_id (MkEntity (MkKey k None) p) s =
    MkRun (inr (MkEntity (MkKey k (Some (JInt new_id))) p))
      (set_kind_map k (<[new_id := p]> (kind_map k s)) s)
      [WPut (MkKey k (Some (JInt new_id))) p].
Proof. done. Qed.

(** ** Business handlers, case by case *)

Lemma create_business_invalid (new_id : Z) (content : gmap string json) (s : Store) :
  forallb (contains content) required_business = false ->
  create_business new_id content s = MkRun (inr (error missing_attributes 400)) s [].
Proof. intros H. unfold create_business. by rewrite H. Qed.

Lemma create_business_valid (new_id : Z) (content : gmap string json) (s : Store) :
  has_fields required_business content ->
  create_business new_id content s =
    MkRun (inr (jsonify (business_view new_id content) 201))
      (MkStore (<[new_id := restrict required_business content]> (businesses s)) (reviews s))
      [WPut (MkKey Business (Some (JInt new_id))) (restrict required_business content)].
Proof.
  intros H. unfold create_business. rewrite H. cbn [negb].
  rewrite (bind_pure _ _ _ _ (project_ok _ _ _ H)).
  unfold update, new_entity, client_key. cbn [props entity_key].
  rewrite (right_id_L ∅ (∪)).
  rewrite (bind_step _ _ _ _ _ _ (client_put_new_run _ _ _ _)).
  rewrite (bind_pure _ _ _ _ (business_dict_ok _ _ _ _ (has_fields_restrict _ _ H))).
  unfold business_view. by rewrite restrict_idemp.
Qed.

Lemma get_business_absent (business_id : Z) (s : Store) :
  absent (businesses s !! business_id) ->
  get_business business_id s = MkRun (inr (error no_business 404)) s [].
Proof.
  intros H. unfold get_business. rewrite (bind_pure _ _ _ _ (client_get_id _ _ _)).
  cbn [kind_map]. by rewrite truthy_absent.
Qed.

Lemma get_business_found (business_id : Z) (b : gmap string json) (s : Store) :
  businesses s !! business_id = Some b -> has_fields required_business b ->
  get_business business_id s =
    MkRun (inr (jsonify (business_view business_id b) 200)) s [].
Proof.
  intros Hb Hok. unfold get_business. rewrite (bind_pure _ _ _ _ (client_get_id _ _ _)).
  cbn [kind_map]. rewrite Hb. cbn [fmap option_fmap option_map].
  rewrite truthy_some by (by eapply has_fields_nonempty).
  by rewrite (bind_pure _ _ _ _ (business_dict_ok _ _ _ _ Hok)).
Qed.

Lemma edit_business_invalid (business_id : Z) (content : gmap string json) (s : Store) :
  forallb (contains content) required_business = false ->
  edit_business business_id content s = MkRun (inr (error missing_attributes 400)) s [].
Proof. intros H. unfold edit_business. by rewrite H. Qed.

Lemma edit_business_absent (business_id : Z) (content : gmap string json) (s : Store) :
  has_fields required_business content ->
  absent (businesses s !! business_id) ->
  edit_business business_id content s = MkRun (inr (error no_business 404)) s [].
Proof.
  intros Hc H. unfold edit_business. rewrite Hc. cbn [negb].
  rewrite (bind_pure _ _ _ _ (client_get_id _ _ _)).
  cbn [kind_map]. by rewrite truthy_absent.
Qed.

Lemma edit_business_found (business_id : Z) (content b : gmap string json) (s : Store) :
  has_fields required_business content ->
  businesses s !! business_id = Some b -> b ≠ ∅ ->
  edit_business business_id content s =
    MkRun (inr (jsonify (business_view business_id content) 200))
      (MkStore (<[business_id := restrict required_business content ∪ b]> (businesses s))
         (reviews s))
      [WPut (MkKey Business (Some (JInt business_id)))
         (restrict required_business content ∪ b)].
Proof.
  intros Hc Hb Hne. unfold edit_business. rewrite Hc. cbn [negb].
  rewrite (bind_pure _ _ _ _ (client_get_id _ _ _)).
  cbn [kind_map]. rewrite Hb. cbn [fmap option_fmap option_map].
  rewrite truthy_some by done.
  rewrite (bind_pure _ _ _ _ (project_ok _ _ _ Hc)).
  unfold update, client_key. cbn [props entity_key].
  rewrite (bind_step _ _ _ _ _ _ (client_put_run _ _)).
  cbn [apply_write stored_id id_or_name kind entity_key props set_kind_map kind_map].
  erewrite bind_pure; [|apply business_dict_ok].
  - unfold business_view. by rewrite restrict_union.
  - apply has_fields_lookup. intros f Hf.
    destruct (proj1 (has_fields_lookup _ _) Hc f Hf) as [v Hv].
    exists v. apply lookup_union_Some_l. by rewrite lookup_restrict, decide_True.
Qed.

Lemma delete_business_absent (business_id : Z) (s : Store) :
  absent (businesses s !! business_id) ->
  delete_business business_id s = MkRun (inr (error no_business 404)) s [].
Proof.
  intros H. unfold delete_business. rewrite (bind_pure _ _ _ _ (client_get_id _ _ _)).
  cbn [kind_map]. by rewrite truthy_absent.
Qed.

Lemma delete_business_found (business_id : Z) (b : gmap string json) (s : Store) :
  businesses s !! business_id = Some b -> b ≠ ∅ ->
  delete_business business_id s =
    MkRun (inr (MkResponse (BText EmptyString) 204))
      (MkStore (delete business_id (businesses s))
         (filter (fun ip => snd ip !! "business_id" <> Some (JInt business_id)) (reviews s)))
      (map (fun ip => WDelete (MkKey Review (Some (JInt (fst ip))))) (reviews_of business_id s)
         ++ [WDelete (MkKey Business (Some (JInt business_id)))]).
Proof.
  intros Hb Hne. unfold delete_business. rewrite (bind_pure _ _ _ _ (client_get_id _ _ _)).
  cbn [kind_map]. rewrite Hb. cbn [fmap option_fmap option_map].
  rewrite truthy_some by done.
  rewrite (bind_pure _ _ _ _ (fetch_selected _ _)).
  rewrite (bind_step _ _ _ _ _ _ (for_each_delete _ _)).
  unfold bind, client_delete, ret, client_key, reviews_of.
  cbn [outcome final trace apply_write stored_id id_or_name kind set_kind_map kind_map
       businesses reviews q_kind add_filter client_query].
  rewrite foldl_delete_selected. do 2 f_equal.
  apply map_filter_ext. intros i p _. cbn [snd].
  by rewrite matches_eq1.
Qed.

(** ** Review handlers, case by case *)

Lemma lookup_review_props (content : gmap string json) (f : string) :
  review_props content !! f =
    if decide (f ∈ "review_text" :: required_review) then content !! f else None.
Proof.
  unfold review_props.
  destruct (decide (f = "review_text")) as [->|Hne].
  - rewrite decide_True by (by left).
    destruct (content !! "review_text") eqn:E; [by rewrite lookup_insert_eq|].
    by rewrite lookup_restrict.
  - assert (restrict required_review content !! f =
            if decide (f ∈ "review_text" :: required_review) then content !! f else None) as H.
    { rewrite lookup_restrict.
      destruct (decide (f ∈ required_review)) as [Hin|Hin].
      - by rewrite decide_True by (by right).
      - rewrite decide_False; [done|]. by intros [->|?]%elem_of_cons. }
    destruct (content !! "review_text"); [by rewrite lookup_insert_ne|done].
Qed.

Lemma review_view_props (id : Z) (content : gmap string json) :
  review_view id (review_props content) = review_view id content.
Proof.
  unfold review_view. rewrite lookup_review_props, decide_True by (by left).
  rewrite (restrict_ext _ (review_props content) content); [done|].
  intros f Hf. rewrite lookup_review_props. rewrite decide_True; [done|]. by right.
Qed.

Lemma has_fields_review_props (content : gmap string json) :
  has_fields required_review content -> has_fields required_review (review_props content).
Proof.
  intros H. apply has_fields_lookup. intros f Hf.
  rewrite lookup_review_props, decide_True by (by right).
  by apply (proj1 (has_fields_lookup _ _) H).
Qed.

Lemma lookup_edited (content : gmap string json) (v : json) (r : gmap string json) (f : string) :
  edited content v r !! f =
    if decide (f = "review_text") then
      match content !! "review_text" with Some t => Some t | None => r !! f end
    else if decide (f = "stars") then Some v
    else r !! f.
Proof.
  unfold edited. destruct (decide (f = "review_text")) as [->|Hne].
  - destruct (content !! "review_text"); [by rewrite lookup_insert_eq|].
    by rewrite lookup_insert_ne.
  - assert (<["stars" := v]> r !! f = if decide (f = "stars") then Some v else r !! f) as H.
    { destruct (decide (f = "stars")) as [->|Hs];
        [by rewrite lookup_insert_eq | by rewrite lookup_insert_ne]. }
    destruct (content !! "review_text"); [by rewrite lookup_insert_ne|done].
Qed.

Lemma has_fields_edited (content : gmap string json) (v : json) (r : gmap string json) :
  has_fields required_review r -> has_fields required_review (edited content v r).
Proof.
  intros H. apply has_fields_lookup. intros f Hf. rewrite lookup_edited.
  pose proof (proj1 (has_fields_lookup _ _) H f Hf) as Hr.
  destruct (decide (f = "review_text")) as [->|?].
  - by destruct (content !! "review_text").
  - by destruct (decide (f = "stars")).
Qed.

Lemma selected_reviewed (s : Store) (u b : json) :
  selected (add_filter (add_filter (client_query Review) "user_id" u) "business_id" b)
    (reviews s) = [] <-> ~ reviewed s u b.
Proof.
  rewrite selected_nil. unfold reviewed. split.
  - intros H (i & r & Hr & Hu & Hb). apply (H i r Hr). by apply matches_eq2.
  - intros H i r Hr [Hu Hb]%matches_eq2. apply H. by exists i, r.
Qed.

Lemma create_review_invalid (new_id : Z) (content : gmap string json) (s : Store) :
  forallb (contains content) required_review = false ->
  create_review new_id content s = MkRun (inr (error missing_attributes 400)) s [].
Proof. intros H. unfold create_review. by rewrite H. Qed.

Lemma create_review_no_business (new_id : Z) (content : gmap string json) (bv : json) (s : Store) :
  has_fields required_review content ->
  content !! "business_id" = Some bv ->
  absent (business_of s bv) ->
  create_review new_id content s = MkRun (inr (error no_business 404)) s [].
Proof.
  intros Hc Hb H. unfold create_review. rewrite Hc. cbn [negb].
  rewrite (bind_pure _ _ _ _ (getitem_ok _ _ _ _ Hb)).
  rewrite (bind_pure _ _ _ _ (client_get_value _ _)).
  by rewrite truthy_absent.
Qed.

Lemma create_review_conflict (new_id : Z) (content : gmap string json) (u bv : json)
    (b : gmap string json) (s : Store) :
  has_fields required_review content ->
  content !! "user_id" = Some u -> content !! "business_id" = Some bv ->
  business_of s bv = Some b -> b ≠ ∅ ->
  reviewed s u bv ->
  create_review new_id content s = MkRun (inr (error already_reviewed 409)) s [].
Proof.
  intros Hc Hu Hb Hs Hne Hr. unfold create_review. rewrite Hc. cbn [negb].
  rewrite (bind_pure _ _ _ _ (getitem_ok _ _ _ _ Hb)).
  rewrite (bind_pure _ _ _ _ (client_get_value _ _)).
  rewrite Hs. cbn [fmap option_fmap option_map]. rewrite truthy_some by done.
  rewrite (bind_pure _ _ _ _ (getitem_ok _ _ _ _ Hu)).
  rewrite (bind_pure _ _ _ _ (getitem_ok _ _ _ _ Hb)).
  rewrite (bind_pure _ _ _ _ (fetch_selected _ _)).
  cbn [q_kind add_filter client_query kind_map].
  destruct (selected _ (reviews s)) as [|[i r] l] eqn:E; [|done].
  by apply selected_reviewed in E.
Qed.

Lemma create_review_created (new_id : Z) (content : gmap string json) (u bv : json)
    (b : gmap string json) (s : Store) :
  has_fields required_review content ->
  content !! "user_id" = Some u -> content !! "business_id" = Some bv ->
  business_of s bv = Some b -> b ≠ ∅ ->
  ~ reviewed s u bv ->
  create_review new_id content s =
    MkRun (inr (jsonify (review_view new_id content) 201))
      (MkStore (businesses s) (<[new_id := review_props content]> (reviews s)))
      [WPut (MkKey Review (Some (JInt new_id))) (review_props content)].
Proof.
  intros Hc Hu Hb Hs Hne Hr. unfold create_review. rewrite Hc. cbn [negb].
  rewrite (bind_pure _ _ _ _ (getitem_ok _ _ _ _ Hb)).
  rewrite (bind_pure _ _ _ _ (client_get_value _ _)).
  rewrite Hs. cbn [fmap option_fmap option_map]. rewrite truthy_some by done.
  rewrite (bind_pure _ _ _ _ (getitem_ok _ _ _ _ Hu)).
  rewrite (bind_pure _ _ _ _ (getitem_ok _ _ _ _ Hb)).
  rewrite (bind_pure _ _ _ _ (fetch_selected _ _)).
  cbn [q_kind add_filter client_query kind_map].
  apply selected_reviewed in Hr. rewrite Hr. cbn [map].
  rewrite (bind_pure _ _ _ _ (project_ok _ _ _ Hc)).
  unfold update, new_entity, client_key. cbn [props entity_key].
  rewrite (right_id_L ∅ (∪)).
  rewrite (bind_pure _ _ (MkEntity (MkKey Review None) (review_props content))).
  2:{ unfold review_props, contains, getitem, setitem.
      by destruct (content !! "review_text"). }
  rewrite (bind_step _ _ _ _ _ _ (client_put_new_run _ _ _ _)).
  rewrite (bind_pure _ _ _ _
             (review_dict_ok _ _ _ _ (has_fields_review_props _ Hc))).
  by rewrite review_view_props.
Qed.

Lemma get_review_absent (review_id : Z) (s : Store) :
  absent (reviews s !! review_id) ->
  get_review review_id s = MkRun (inr (error no_review 404)) s [].
Proof.
  intros H. unfold get_review. rewrite (bind_pure _ _ _ _ (client_get_id _ _ _)).
  cbn [kind_map]. by rewrite truthy_absent.
Qed.

Lemma get_review_found (review_id : Z) (r : gmap string json) (s : Store) :
  reviews s !! review_id = Some r -> has_fields required_review r ->
  get_review review_id s = MkRun (inr (jsonify (review_view review_id r) 200)) s [].
Proof.
  intros Hr Hok. unfold get_review. rewrite (bind_pure _ _ _ _ (client_get_id _ _ _)).
  cbn [kind_map]. rewrite Hr. cbn [fmap option_fmap option_map].
  rewrite truthy_some by (by eapply has_fields_nonempty).
  by rewrite (bind_pure _ _ _ _ (review_dict_ok _ _ _ _ Hok)).
Qed.

Lemma edit_review_invalid (review_id : Z) (content : gmap string json) (s : Store) :
  content !! "stars" = None ->
  edit_review review_id content s = MkRun (inr (error missing_attributes 400)) s [].
Proof. intros H. unfold edit_review, contains. by rewrite H. Qed.

Lemma edit_review_absent (review_id : Z) (content : gmap string json) (v : json) (s : Store) :
  content !! "stars" = Some v ->
  absent (reviews s !! review_id) ->
  edit_review review_id content s = MkRun (inr (error no_review 404)) s [].
Proof.
  intros Hv H. unfold edit_review, contains. rewrite Hv. cbn [negb].
  rewrite (bind_pure _ _ _ _ (client_get_id _ _ _)).
  cbn [kind_map]. by rewrite truthy_absent.
Qed.

(** Whatever the stored review holds, the edit is written; the answer
    is built afterwards from the edited review. *)
Lemma edit_review_written (review_id : Z) (content : gmap string json) (v : json)
    (r : gmap string json) (s : Store) :
  content !! "stars" = Some v ->
  reviews s !! review_id = Some r -> r ≠ ∅ ->
  final (edit_review review_id content s) =
    MkStore (businesses s) (<[review_id := edited content v r]> (reviews s)) /\
  trace (edit_review review_id content s) =
    [WPut (MkKey Review (Some (JInt review_id))) (edited content v r)].
Proof.
  intros Hv Hr Hne. unfold edit_review, contains. rewrite Hv. cbn [negb].
  rewrite (bind_pure _ _ _ _ (client_get_id _ _ _)).
  cbn [kind_map]. rewrite Hr. cbn [fmap option_fmap option_map].
  rewrite truthy_some by done.
  rewrite (bind_pure _ _ _ _ (getitem_ok _ _ _ _ Hv)).
  rewrite (bind_pure _ _ (MkEntity (MkKey Review (Some (JInt review_id))) (edited content v r))).
  2:{ unfold edited, getitem, setitem, client_key. cbn [props entity_key].
      by destruct (content !! "review_text"). }
  rewrite (bind_step _ _ _ _ _ _ (client_put_run _ _)).
  cbn [final trace apply_write stored_id id_or_name kind entity_key props set_kind_map kind_map].
  assert (read_only (response <- review_dict
            (MkEntity (MkKey Review (Some (JInt review_id))) (edited content v r)) ;;
          ret (jsonify response 200))) as Hro.
  { apply read_only_bind; [apply read_only_review_dict|]. intros ?. apply read_only_ret. }
  destruct (Hro (MkStore (businesses s) (<[review_id := edited content v r]> (reviews s))))
    as [-> ->]. done.
Qed.

Lemma edit_review_found (review_id : Z) (content : gmap string json) (v : json)
    (r : gmap string json) (s : Store) :
  content !! "stars" = Some v ->
  reviews s !! review_id = Some r -> has_fields required_review r ->
  edit_review review_id content s =
    MkRun (inr (jsonify (review_view review_id (edited content v r)) 200))
      (MkStore (businesses s) (<[review_id := edited content v r]> (reviews s)))
      [WPut (MkKey Review (Some (JInt review_id))) (edited content v r)].
Proof.
  intros Hv Hr Hok. unfold edit_review, contains. rewrite Hv. cbn [negb].
  rewrite (bind_pure _ _ _ _ (client_get_id _ _ _)).
  cbn [kind_map]. rewrite Hr. cbn [fmap option_fmap option_map].
  rewrite truthy_some by (by eapply has_fields_nonempty).
  rewrite (bind_pure _ _ _ _ (getitem_ok _ _ _ _ Hv)).
  rewrite (bind_pure _ _ (MkEntity (MkKey Review (Some (JInt review_id))) (edited content v r))).
  2:{ unfold edited, getitem, setitem, client_key. cbn [props entity_key].
      by destruct (content !! "review_text"). }
  rewrite (bind_step _ _ _ _ _ _ (client_put_run _ _)).
  cbn [apply_write stored_id id_or_name kind entity_key props set_kind_map kind_map].
  by rewrite (bind_pure _ _ _ _
                (review_dict_ok _ _ _ _ (has_fields_edited content v r Hok))).
Qed.

Lemma delete_review_absent (review_id : Z) (s : Store) :
  absent (reviews s !! review_id) ->
  delete_review review_id s = MkRun (inr (error no_review 404)) s [].
Proof.
  intros H. unfold delete_review. rewrite (bind_pure _ _ _ _ (client_get_id _ _ _)).
  cbn [kind_map]. by rewrite truthy_absent.
Qed.

Lemma delete_review_found (review_id : Z) (r : gmap string json) (s : Store) :
  reviews s !! review_id = Some r -> r ≠ ∅ ->
  delete_review review_id s =
    MkRun (inr (MkResponse (BText EmptyString) 204))
      (MkStore (businesses s) (delete review_id (reviews s)))
      [WDelete (MkKey Review (Some (JInt review_id)))].
Proof.
  intros Hr Hne. unfold delete_review. rewrite (bind_pure _ _ _ _ (client_get_id _ _ _)).
  cbn [kind_map]. rewrite Hr. cbn [fmap option_fmap option_map].
  by rewrite truthy_some by done.
Qed.

(** ** What a request can do to the store *)

Lemma reviewed_dec (s : Store) (u b : json) : reviewed s u b \/ ~ reviewed s u b.
Proof.
  destruct (selected (add_filter (add_filter (client_query Review) "user_id" u) "business_id" b)
              (reviews s)) as [|[i r] l] eqn:E.
  - right. by apply selected_reviewed.
  - left. assert ((i, r) ∈ selected
      (add_filter (add_filter (client_query Review) "user_id" u) "business_id" b) (reviews s))
      as Hin by (rewrite E; by left).
    apply elem_of_selected in Hin as [Hr [Hu Hb]%matches_eq2]. by exists i, r.
Qed.

Lemma has_fields_union (fs : list string) (d p : gmap string json) :
  has_fields fs d -> has_fields fs (restrict fs d ∪ p).
Proof.
  intros Hd. apply has_fields_lookup. intros f Hf.
  destruct (proj1 (has_fields_lookup _ _) Hd f Hf) as [v Hv].
  exists v. apply lookup_union_Some_l. by rewrite lookup_restrict, decide_True.
Qed.

Lemma read_only_final {A : Type} (m : M A) (s : Store) : read_only m -> final (m s) = s.
Proof. intros H. apply H. Qed.

Lemma read_only_get_business (business_id : Z) : read_only (get_business business_id).
Proof.
  unfold get_business. apply read_only_bind; [apply read_only_client_get|].
  intros o. destruct (truthy o); [|apply read_only_ret].
  apply read_only_bind; [apply read_only_business_dict|]. intros ?. apply read_only_ret.
Qed.

Lemma read_only_get_review (review_id : Z) : read_only (get_review review_id).
Proof.
  unfold get_review. apply read_only_bind; [apply read_only_client_get|].
  intros o. destruct (truthy o); [|apply read_only_ret].
  apply read_only_bind; [apply read_only_review_dict|]. intros ?. apply read_only_ret.
Qed.

Lemma read_only_list_businesses : read_only list_businesses.
Proof.
  unfold list_businesses. apply read_only_bind; [apply read_only_fetch|]. intros l.
  apply read_only_bind; [apply read_only_map_each, read_only_business_dict|].
  intros ?. apply read_only_ret.
Qed.

Lemma read_only_list_owner_businesses (owner_id : Z) :
  read_only (list_owner_businesses owner_id).
Proof.
  unfold list_owner_businesses. apply read_only_bind; [apply read_only_fetch|]. intros l.
  apply read_only_bind; [apply read_only_map_each, read_only_business_dict|].
  intros ?. apply read_only_ret.
Qed.

Lemma read_only_list_user_reviews (user_id : Z) : read_only (list_user_reviews user_id).
Proof.
  unfold list_user_reviews. apply read_only_bind; [apply read_only_fetch|]. intros l.
  apply read_only_bind; [apply read_only_map_each, read_only_review_dict|].
  intros ?. apply read_only_ret.
Qed.

Lemma valid_or_not (fs : list string) (d : gmap string json) :
  has_fields fs d \/ forallb (contains d) fs = false.
Proof. unfold has_fields. destruct (forallb (contains d) fs); auto. Qed.

(** Every request is one of the six transitions. *)
Lemma handle_transition (new_id : Z) (req : Request) (s : Store) :
  transition s (final (handle new_id req s)).
Proof.
  destruct req as [content|id| |id content|id|owner|content|id|id content|id|user];
    cbn [handle].
  - destruct (valid_or_not required_business content) as [H|H].
    + rewrite (create_business_valid _ _ _ H). apply t_put_business.
      by apply has_fields_restrict.
    + rewrite (create_business_invalid _ _ _ H). apply t_none.
  - rewrite read_only_final by apply read_only_get_business. apply t_none.
  - rewrite read_only_final by apply read_only_list_businesses. apply t_none.
  - destruct (valid_or_not required_business content) as [H|H].
    + destruct (absent_dec (businesses s !! id)) as [Ha|(b & Hb & Hne)].
      * rewrite (edit_business_absent _ _ _ H Ha). apply t_none.
      * rewrite (edit_business_found _ _ _ _ H Hb Hne). apply t_put_business.
        by apply has_fields_union.
    + rewrite (edit_business_invalid _ _ _ H). apply t_none.
  - destruct (absent_dec (businesses s !! id)) as [Ha|(b & Hb & Hne)].
    + rewrite (delete_business_absent _ _ Ha). apply t_none.
    + rewrite (delete_business_found _ _ _ Hb Hne). apply t_delete_business.
  - rewrite read_only_final by apply read_only_list_owner_businesses. apply t_none.
  - destruct (valid_or_not required_review content) as [H|H].
    + destruct (proj1 (has_fields_lookup _ _) H "user_id") as [u Hu];
        [by left|].
      destruct (proj1 (has_fields_lookup _ _) H "business_id") as [bv Hbv];
        [by right; left|].
      destruct (absent_dec (business_of s bv)) as [Ha|(b & Hb & Hne)].
      * rewrite (create_review_no_business _ _ _ _ H Hbv Ha). apply t_none.
      * destruct (reviewed_dec s u bv) as [Hr|Hr].
        -- rewrite (create_review_conflict _ _ _ _ _ _ H Hu Hbv Hb Hne Hr). apply t_none.
        -- rewrite (create_review_created _ _ _ _ _ _ H Hu Hbv Hb Hne Hr).
           by apply (t_new_review s new_id content u bv).
    + rewrite (create_review_invalid _ _ _ H). apply t_none.
  - rewrite read_only_final by apply read_only_get_review. apply t_none.
  - destruct (content !! "stars") as [v|] eqn:Hv.
    + destruct (absent_dec (reviews s !! id)) as [Ha|(r & Hr & Hne)].
      * rewrite (edit_review_absent _ _ _ _ Hv Ha). apply t_none.
      * destruct (edit_review_written _ _ _ _ _ Hv Hr Hne) as [-> _].
        by apply t_edit_review.
    + rewrite (edit_review_invalid _ _ _ Hv). apply t_none.
  - destruct (absent_dec (reviews s !! id)) as [Ha|(r & Hr & Hne)].
    + rewrite (delete_review_absent _ _ Ha). apply t_none.
    + rewrite (delete_review_found _ _ _ Hr Hne). apply t_delete_review.
  - rewrite read_only_final by apply read_only_list_user_reviews. apply t_none.
Qed.

Lemma transition_store_ok (s s' : Store) : transition s s' -> store_ok s -> store_ok s'.
Proof.
  intros Ht [Hb Hr]. destruct Ht; split; cbn [businesses reviews]; try done.
  - by apply map_Forall_insert_2.
  - by apply map_Forall_delete.
  - intros i r [Hi _]%map_lookup_filter_Some. by apply (Hr i).
  - apply map_Forall_insert_2; [|done]. by apply has_fields_review_props.
  - apply map_Forall_insert_2; [|done]. apply has_fields_edited. by apply (Hr id).
  - by apply map_Forall_delete.
Qed.

Lemma transition_unique (s s' : Store) :
  transition s s' -> unique_reviews s -> unique_reviews s'.
Proof.
  intros Ht Hu. destruct Ht as [|id p Hp|id|id content u bv Hc Hcu Hcb Hnr|id content v r Hr|id];
    try done; intros i j ri rj; cbn [reviews].
  - intros [Hi _]%map_lookup_filter_Some [Hj _]%map_lookup_filter_Some. by apply Hu.
  - assert (forall k rk, reviews s !! k = Some rk ->
              review_props content !! "user_id" = rk !! "user_id" ->
              review_props content !! "business_id" = rk !! "business_id" -> False) as Hnew.
    { intros k rk Hk. rewrite !lookup_review_props.
      rewrite !decide_True by (by repeat (try (by left); right)).
      rewrite Hcu, Hcb. intros Hku Hkb. apply Hnr. by exists k, rk. }
    destruct (decide (i = id)) as [->|Hi], (decide (j = id)) as [->|Hj]; try done.
    + rewrite lookup_insert_eq, lookup_insert_ne by done.
      intros [= <-] Hj' H1 H2. by destruct (Hnew j rj Hj').
    + rewrite lookup_insert_eq, lookup_insert_ne by done.
      intros Hi' [= <-] H1 H2. by destruct (Hnew i ri Hi').
    + rewrite !lookup_insert_ne by done. by apply Hu.
  - assert (forall k rk, <[id := edited content v r]> (reviews s) !! k = Some rk ->
              exists rk', reviews s !! k = Some rk' /\
                rk !! "user_id" = rk' !! "user_id" /\
                rk !! "business_id" = rk' !! "business_id") as Hold.
    { intros k rk. destruct (decide (k = id)) as [->|Hk].
      - rewrite lookup_insert_eq. intros [= <-]. exists r.
        by rewrite !lookup_edited.
      - rewrite lookup_insert_ne by done. intros Hk'. by exists rk. }
    intros Hi Hj H1 H2.
    destruct (Hold i ri Hi) as (ri' & Hi' & Hiu & Hib).
    destruct (Hold j rj Hj) as (rj' & Hj' & Hju & Hjb).
    apply (Hu i j ri' rj' Hi' Hj'); congruence.
  - intros [_ Hi]%lookup_delete_Some [_ Hj]%lookup_delete_Some. by apply Hu.
Qed.

Lemma store_ok_empty : store_ok empty_store.
Proof. split; apply map_Forall_empty. Qed.

(** The data model holds of every store the service can be in. *)
Lemma reachable_store_ok (s : Store) : reachable s -> store_ok s.
Proof.
  induction 1 as [|s new_id req Hs IH Hid]; [apply store_ok_empty|].
  eapply transition_store_ok; [apply handle_transition | done].
Qed.

(** ** Reading a response body *)

Lemma id_not_required_business : "id" ∉ required_business.
Proof.
  intros H. repeat (apply elem_of_cons in H as [H|H]; [discriminate|]).
  by apply not_elem_of_nil in H.
Qed.

Lemma id_not_required_review : "id" ∉ "review_text" :: required_review.
Proof.
  intros H. repeat (apply elem_of_cons in H as [H|H]; [discriminate|]).
  by apply not_elem_of_nil in H.
Qed.

Lemma review_text_not_required : "review_text" ∉ required_review.
Proof.
  intros H. repeat (apply elem_of_cons in H as [H|H]; [discriminate|]).
  by apply not_elem_of_nil in H.
Qed.

Lemma lookup_business_view (id : Z) (p : gmap string json) (f : string) :
  business_view id p !! f =
    if decide (f = "id") then Some (JInt id)
    else if decide (f ∈ required_business) then p !! f else None.
Proof.
  unfold business_view. destruct (decide (f = "id")) as [->|Hne].
  - by rewrite lookup_insert_eq.
  - rewrite lookup_insert_ne by done. apply lookup_restrict.
Qed.

Lemma lookup_review_view (id : Z) (p : gmap string json) (f : string) :
  review_view id p !! f =
    if decide (f = "id") then Some (JInt id)
    else if decide (f ∈ "review_text" :: required_review) then p !! f else None.
Proof.
  assert (<["id" := JInt id]> (restrict required_review p) !! f =
          if decide (f = "id") then Some (JInt id)
          else if decide (f ∈ required_review) then p !! f else None) as Hd.
  { destruct (decide (f = "id")) as [->|Hne].
    - by rewrite lookup_insert_eq.
    - rewrite lookup_insert_ne by done. apply lookup_restrict. }
  unfold review_view. cbv zeta.
  destruct (decide (f = "review_text")) as [->|Hne].
  - rewrite decide_False by discriminate. rewrite decide_True by (by left).
    destruct (p !! "review_text") eqn:E; [by rewrite lookup_insert_eq|].
    rewrite Hd, decide_False by discriminate.
    by rewrite decide_False by apply review_text_not_required.
  - assert (<["id" := JInt id]> (restrict required_review p) !! f =
            if decide (f = "id") then Some (JInt id)
            else if decide (f ∈ "review_text" :: required_review) then p !! f else None) as H.
    { rewrite Hd. destruct (decide (f = "id")); [done|].
      destruct (decide (f ∈ required_review)) as [Hin|Hin].
      - by rewrite decide_True by (by right).
      - rewrite decide_False; [done|]. by intros [->|?]%elem_of_cons. }
    destruct (p !! "review_text"); [by rewrite lookup_insert_ne|done].
Qed.

(** The store a handler leaves is the store it found with its writes
    applied in order; here for the cascade. *)
Lemma foldl_apply_deletes (l : list (Z * gmap string json)) (s : Store) :
  foldl apply_write s (map (fun ip => WDelete (MkKey Review (Some (JInt (fst ip))))) l) =
    MkStore (businesses s) (foldl (fun m ip => delete (fst ip) m) (reviews s) l).
Proof.
  revert s. induction l as [|[i p] l IH]; intros s; [by destruct s|].
  cbn [map foldl fst]. by rewrite IH.
Qed.

(** * The claims *)

(** C1. Cascade of [delete_business]: where a business [b] is stored
    under [business_id], the handler answers 204; its writes are one
    delete for each review whose [business_id] is that id, and then, last,
    the delete of the business, and the store it leaves is the store
    with these writes applied in that order; afterwards each such review
    is gone and [get_review] answers 404 for it, and the business is gone
    and [get_business] answers 404.  ([b ≠ ∅]: an entity without
    properties is what [if not business] takes for none; every business
    the handlers write has six.) *)
Theorem delete_business_cascade (business_id : Z) (b : gmap string json) (s : Store) :
  businesses s !! business_id = Some b -> b ≠ ∅ ->
  let run := delete_business business_id s in
  outcome run = inr (MkResponse (BText EmptyString) 204) /\
  (forall i r, (i, r) ∈ reviews_of business_id s <->
     reviews s !! i = Some r /\ r !! "business_id" = Some (JInt business_id)) /\
  trace run =
    map (fun ip => WDelete (MkKey Review (Some (JInt (fst ip))))) (reviews_of business_id s)
    ++ [WDelete (MkKey Business (Some (JInt business_id)))] /\
  final run = foldl apply_write s (trace run) /\
  (forall i r, reviews s !! i = Some r -> r !! "business_id" = Some (JInt business_id) ->
     reviews (final run) !! i = None /\
     get_review i (final run) = MkRun (inr (error no_review 404)) (final run) []) /\
  businesses (final run) !! business_id = None /\
  get_business business_id (final run) =
    MkRun (inr (error no_business 404)) (final run) [].
Proof.
  intros Hb Hne run. subst run. rewrite (delete_business_found _ _ _ Hb Hne).
  cbn [outcome final trace businesses reviews].
  assert (forall i r, reviews s !! i = Some r ->
            r !! "business_id" = Some (JInt business_id) ->
            filter (fun ip => snd ip !! "business_id" <> Some (JInt business_id)) (reviews s)
              !! i = None) as Hgone.
  { intros i r Hr Hrb. apply map_lookup_filter_None. right.
    intros r' Hr' Hn. apply Hn. cbn [snd]. congruence. }
  split_and!; [done| |done| | | |].
  - intros i r. unfold reviews_of. rewrite elem_of_selected, matches_eq1. done.
  - rewrite foldl_app, foldl_apply_deletes. cbn [foldl apply_write stored_id id_or_name
      kind set_kind_map kind_map businesses reviews]. f_equal.
    unfold reviews_of. rewrite foldl_delete_selected.
    apply map_filter_ext. intros i p _. cbn [snd]. by rewrite matches_eq1.
  - intros i r Hr Hrb. split; [by eapply Hgone|].
    apply get_review_absent. left. cbn [reviews]. by eapply Hgone.
  - apply lookup_delete_eq.
  - apply get_business_absent. left. cbn [businesses]. apply lookup_delete_eq.
Qed.

Lemma delete_business_cascade_witness :
  trace (delete_business 7 one_review) =
    [WDelete (MkKey Review (Some (JInt 3))); WDelete (MkKey Business (Some (JInt 7)))] /\
  get_review 3 (final (delete_business 7 one_review)) =
    MkRun (inr (error no_review 404)) (final (delete_business 7 one_review)) [].
Proof.
  destruct (delete_business_cascade 7 acme one_review) as (_ & _ & Ht & _ & Hr & _).
  - reflexivity.
  - apply (bool_decide_eq_false_1 (acme = ∅)). vm_compute. reflexivity.
  - split; [exact Ht|]. apply (Hr 3 praise); reflexivity.
Defined.

(** C2. Uniqueness: in every store reachable by handling requests one
    after the other from the empty store, no two reviews have the same
    (user_id, business_id) pair; and every request, whatever it is and
    whatever id Datastore assigns, leaves the pair unique in a store
    where it was. *)
Theorem unique_reviews_invariant (s : Store) :
  (reachable s -> unique_reviews s) /\
  (unique_reviews s ->
   forall (new_id : Z) (req : Request), unique_reviews (final (handle new_id req s))).
Proof.
  split.
  - induction 1 as [|s new_id req Hs IH Hid].
    + intros i j ri rj Hi. unfold empty_store in Hi. cbn [reviews] in Hi.
      by rewrite lookup_empty in Hi.
    + eapply transition_unique; [apply handle_transition | done].
  - intros Hu new_id req. eapply transition_unique; [apply handle_transition | done].
Qed.

Lemma unique_reviews_invariant_witness :
  unique_reviews (final (handle 7 (PostBusinesses acme) empty_store)) /\
  unique_reviews (final (handle 4 (PostReviews praise) one_review)).
Proof.
  split.
  - apply (proj1 (unique_reviews_invariant (final (handle 7 (PostBusinesses acme) empty_store)))).
    apply reachable_handle; [apply reachable_empty | reflexivity].
  - apply (proj2 (unique_reviews_invariant one_review)). intros i j ri rj.
    destruct (decide (i = 3)) as [->|Hi], (decide (j = 3)) as [->|Hj]; try done.
    + intros _ Hj'. unfold one_review in Hj'. cbn [reviews] in Hj'.
      by rewrite lookup_singleton_ne in Hj'.
    + intros Hi'. unfold one_review in Hi'. cbn [reviews] in Hi'.
      by rewrite lookup_singleton_ne in Hi'.
    + intros Hi'. unfold one_review in Hi'. cbn [reviews] in Hi'.
      by rewrite lookup_singleton_ne in Hi'.
Defined.

(** Over the storage collaborator of the spec, whose [Get] and [Put]
    never fail.  The order of the checks of [create_review], for every payload
    and every store of the data model: a missing [user_id],
    [business_id] or [stars] is answered 400; otherwise a [business_id]
    under which no business is stored is answered 404; otherwise a
    stored review with the same (user_id, business_id) is answered 409;
    none of the three writes anything.  Only otherwise is a review put,
    under the generated id, with [user_id], [business_id] and [stars]
    copied from the payload and [review_text] exactly when the payload
    has it, and answered 201. *)
Lemma create_review_contract (new_id : Z) (content : gmap string json) (s : Store) :
  store_ok s ->
  let run := create_review new_id content s in
  ((exists f, f ∈ required_review /\ content !! f = None) ->
     run = MkRun (inr (error missing_attributes 400)) s []) /\
  (forall u bv : json,
     has_fields required_review content ->
     content !! "user_id" = Some u -> content !! "business_id" = Some bv ->
     (business_of s bv = None ->
        run = MkRun (inr (error no_business 404)) s []) /\
     (is_Some (business_of s bv) -> reviewed s u bv ->
        run = MkRun (inr (error already_reviewed 409)) s []) /\
     (is_Some (business_of s bv) -> ~ reviewed s u bv ->
        exists p : gmap string json,
          run = MkRun (inr (jsonify (review_view new_id content) 201))
                  (MkStore (businesses s) (<[new_id := p]> (reviews s)))
                  [WPut (MkKey Review (Some (JInt new_id))) p] /\
          forall f, p !! f =
            if decide (f ∈ ["review_text"; "user_id"; "business_id"; "stars"])
            then content !! f else None)).
Proof.
  intros [Hbs Hrs] run. subst run. split.
  - intros H%missing_field. by apply create_review_invalid.
  - intros u bv Hc Hu Hbv.
    assert (forall b, business_of s bv = Some b -> b ≠ ∅) as Hne.
    { intros b Hb. destruct bv; try done. cbn [business_of] in Hb.
      eapply has_fields_nonempty. apply (Hbs _ _ Hb). }
    split_and!.
    + intros Hb. apply (create_review_no_business _ _ bv); [done..|]. by left.
    + intros [b Hb] Hr. by apply (create_review_conflict _ _ u bv b); eauto.
    + intros [b Hb] Hr. exists (review_props content). split.
      * by apply (create_review_created _ _ u bv b); eauto.
      * apply lookup_review_props.
Qed.

(** Over the storage collaborator of the spec, whose [Get] and [Put]
    never fail.  Partial update of [edit_review]: for a stored review [r] and a
    payload with [stars], the review put back has the payload's [stars];
    its [review_text] is the payload's when the payload has one and that
    of [r] (or none) otherwise; [user_id], [business_id] and every other
    property are those of [r]; the answer is 200 with the edited
    review. *)
Lemma edit_review_partial_update (review_id : Z) (content : gmap string json) (v : json)
    (r : gmap string json) (s : Store) :
  reviews s !! review_id = Some r -> has_fields required_review r ->
  content !! "stars" = Some v ->
  let run := edit_review review_id content s in
  exists r' : gmap string json,
    run = MkRun (inr (jsonify (review_view review_id r') 200))
            (MkStore (businesses s) (<[review_id := r']> (reviews s)))
            [WPut (MkKey Review (Some (JInt review_id))) r'] /\
    r' !! "stars" = Some v /\
    r' !! "review_text" =
      match content !! "review_text" with
      | Some t => Some t
      | None => r !! "review_text"
      end /\
    r' !! "user_id" = r !! "user_id" /\
    r' !! "business_id" = r !! "business_id" /\
    (forall f, f ≠ "stars" -> f ≠ "review_text" -> r' !! f = r !! f).
Proof.
  intros Hr Hok Hv run. subst run. exists (edited content v r). split_and!.
  - by apply edit_review_found.
  - by rewrite lookup_edited.
  - by rewrite lookup_edited.
  - by rewrite lookup_edited.
  - by rewrite lookup_edited.
  - intros f Hs Ht. rewrite lookup_edited. by rewrite !decide_False by done.
Qed.



(** C6. Both creates answer 400 exactly when a required field is
    missing from the payload, and then leave the store as it was and
    write nothing. *)
Theorem create_validation (new_id : Z) (content : gmap string json) (s : Store) :
  (status_code (create_business new_id content s) = 400 <->
     exists f, f ∈ required_business /\ content !! f = None) /\
  ((exists f, f ∈ required_business /\ content !! f = None) ->
     create_business new_id content s = MkRun (inr (error missing_attributes 400)) s []) /\
  (status_code (create_review new_id content s) = 400 <->
     exists f, f ∈ required_review /\ content !! f = None) /\
  ((exists f, f ∈ required_review /\ content !! f = None) ->
     create_review new_id content s = MkRun (inr (error missing_attributes 400)) s []).
Proof.
  split_and!.
  - rewrite <- missing_field.
    destruct (valid_or_not required_business content) as [H|H].
    + rewrite (create_business_valid _ _ _ H). unfold has_fields in H. rewrite H.
      unfold status_code. cbn [outcome status jsonify]. split; discriminate.
    + by rewrite (create_business_invalid _ _ _ H).
  - intros H%missing_field. by apply create_business_invalid.
  - rewrite <- missing_field.
    destruct (valid_or_not required_review content) as [H|H].
    + assert (status_code (create_review new_id content s) <> 400) as Hne.
      { destruct (proj1 (has_fields_lookup _ _) H "user_id") as [u Hu]; [by left|].
        destruct (proj1 (has_fields_lookup _ _) H "business_id") as [bv Hbv];
          [by right; left|].
        destruct (absent_dec (business_of s bv)) as [Ha|(b & Hb & Hne)].
        - by rewrite (create_review_no_business _ _ _ _ H Hbv Ha).
        - destruct (reviewed_dec s u bv) as [Hr|Hr].
          + by rewrite (create_review_conflict _ _ _ _ _ _ H Hu Hbv Hb Hne Hr).
          + by rewrite (create_review_created _ _ _ _ _ _ H Hu Hbv Hb Hne Hr). }
      unfold has_fields in H. rewrite H. split; [done | discriminate].
    + by rewrite (create_review_invalid _ _ _ H).
  - intros H%missing_field. by apply create_review_invalid.
Qed.

Lemma create_validation_witness :
  create_business 8 (delete "name" acme) one_business =
    MkRun (inr (error missing_attributes 400)) one_business [] /\
  create_review 4 (delete "user_id" praise) one_business =
    MkRun (inr (error missing_attributes 400)) one_business [].
Proof.
  split.
  - apply (create_validation 8 (delete "name" acme) one_business).
    exists "name". split; [|reflexivity]. by repeat (try (by left); right).
  - apply (create_validation 4 (delete "user_id" praise) one_business).
    exists "user_id". split; [|reflexivity]. by left.
Defined.

(** Over the storage collaborator of the spec, whose [Get] and [Put]
    never fail.  Create, then get.  For a payload with the six business fields,
    [create_business] answers 201 with the generated id and the six
    fields as the payload has them, and [get_business] of that id then
    answers 200 with the same body.  For a payload with the three review
    fields, a stored business under its [business_id] and no stored
    review for its (user_id, business_id), [create_review] answers 201
    with the generated id, the three fields as the payload has them, and
    [review_text] exactly when the payload has it, and [get_review] of
    that id then answers 200 with the same body. *)
Lemma create_then_get (new_id : Z) (content : gmap string json) (s : Store) :
  (has_fields required_business content ->
   let run := create_business new_id content s in
   exists resp : Response,
     outcome run = inr resp /\ status resp = 201 /\
     body_field resp "id" = Some (JInt new_id) /\
     (forall f, f ∈ required_business -> body_field resp f = content !! f) /\
     get_business new_id (final run) = MkRun (inr (MkResponse (body resp) 200)) (final run) []) /\
  (store_ok s -> has_fields required_review content ->
   forall u bv : json,
     content !! "user_id" = Some u -> content !! "business_id" = Some bv ->
     is_Some (business_of s bv) -> ~ reviewed s u bv ->
     let run := create_review new_id content s in
     exists resp : Response,
       outcome run = inr resp /\ status resp = 201 /\
       body_field resp "id" = Some (JInt new_id) /\
       (forall f, f ∈ required_review -> body_field resp f = content !! f) /\
       body_field resp "review_text" = content !! "review_text" /\
       get_review new_id (final run) = MkRun (inr (MkResponse (body resp) 200)) (final run) []).
Proof.
  split.
  - intros Hc run. subst run. rewrite (create_business_valid _ _ _ Hc).
    exists (jsonify (business_view new_id content) 201).
    cbn [outcome final]. unfold body_field. cbn [body status jsonify].
    split_and!; try done.
    + by rewrite lookup_business_view.
    + intros f Hf. rewrite lookup_business_view.
      rewrite decide_False by (intros ->; by apply id_not_required_business).
      by rewrite decide_True.
    + rewrite (get_business_found new_id (restrict required_business content)).
      * unfold business_view. by rewrite restrict_idemp.
      * cbn [businesses]. apply lookup_insert_eq.
      * by apply has_fields_restrict.
  - intros [Hbs Hrs] Hc u bv Hu Hbv [b Hb] Hnr run. subst run.
    assert (b ≠ ∅) as Hne.
    { destruct bv; try done. cbn [business_of] in Hb.
      eapply has_fields_nonempty. apply (Hbs _ _ Hb). }
    rewrite (create_review_created _ _ _ _ _ _ Hc Hu Hbv Hb Hne Hnr).
    exists (jsonify (review_view new_id content) 201).
    cbn [outcome final]. unfold body_field. cbn [body status jsonify].
    split_and!; try done.
    + by rewrite lookup_review_view.
    + intros f Hf. rewrite lookup_review_view.
      rewrite decide_False
        by (intros ->; apply id_not_required_review; by right).
      by rewrite decide_True by (by right).
    + rewrite lookup_review_view. rewrite decide_False by discriminate.
      by rewrite decide_True by (by left).
    + rewrite (get_review_found new_id (review_props content)).
      * by rewrite review_view_props.
      * cbn [reviews]. apply lookup_insert_eq.
      * by apply has_fields_review_props.
Qed.

(** Over the storage collaborator of the spec, whose [Get] and [Put]
    never fail.  An id under which nothing is stored: get, edit (with a payload
    that passes validation) and delete each answer 404, for businesses
    and for reviews, leave the store as it was and write nothing. *)
Lemma not_found (id : Z) (s : Store) :
  (businesses s !! id = None ->
   get_business id s = MkRun (inr (error no_business 404)) s [] /\
   (forall content, has_fields required_business content ->
      edit_business id content s = MkRun (inr (error no_business 404)) s []) /\
   delete_business id s = MkRun (inr (error no_business 404)) s []) /\
  (reviews s !! id = None ->
   get_review id s = MkRun (inr (error no_review 404)) s [] /\
   (forall content, is_Some (content !! "stars") ->
      edit_review id content s = MkRun (inr (error no_review 404)) s []) /\
   delete_review id s = MkRun (inr (error no_review 404)) s []).
Proof.
  split; intros H; split_and!.
  - apply get_business_absent. by left.
  - intros content Hc. apply edit_business_absent; [done|]. by left.
  - apply delete_business_absent. by left.
  - apply get_review_absent. by left.
  - intros content [v Hv]. apply (edit_review_absent _ _ v); [done|]. by left.
  - apply delete_review_absent. by left.
Qed.

(** Over the storage collaborator of the spec, whose [Get] and [Put]
    never fail.  [stars] is only checked for presence: whatever JSON value [v]
    the payload has for it, [create_review] (the other checks passing)
    and [edit_review] (the review being stored) accept it, store [v] as
    the review's [stars] and answer with [v] as [stars]. *)
Lemma stars_not_validated (v : json) (id : Z) (content : gmap string json) (s : Store) :
  store_ok s -> content !! "stars" = Some v ->
  (forall u bv : json,
     content !! "user_id" = Some u -> content !! "business_id" = Some bv ->
     is_Some (business_of s bv) -> ~ reviewed s u bv ->
     let run := create_review id content s in
     exists (resp : Response) (p : gmap string json),
       outcome run = inr resp /\ status resp = 201 /\
       body_field resp "stars" = Some v /\
       reviews (final run) !! id = Some p /\ p !! "stars" = Some v) /\
  (is_Some (reviews s !! id) ->
   let run := edit_review id content s in
   exists (resp : Response) (p : gmap string json),
     outcome run = inr resp /\ status resp = 200 /\
     body_field resp "stars" = Some v /\
     reviews (final run) !! id = Some p /\ p !! "stars" = Some v).
Proof.
  intros [Hbs Hrs] Hv. split.
  - intros u bv Hu Hbv [b Hb] Hnr run. subst run.
    assert (b ≠ ∅) as Hne.
    { destruct bv; try done. cbn [business_of] in Hb.
      eapply has_fields_nonempty. apply (Hbs _ _ Hb). }
    assert (has_fields required_review content) as Hc.
    { apply has_fields_lookup. intros f Hf.
      repeat (apply elem_of_cons in Hf as [->|Hf]; [by eexists|]).
      by apply not_elem_of_nil in Hf. }
    rewrite (create_review_created _ _ _ _ _ _ Hc Hu Hbv Hb Hne Hnr).
    exists (jsonify (review_view id content) 201), (review_props content).
    cbn [outcome final reviews]. unfold body_field. cbn [body status jsonify].
    split_and!; try done.
    + rewrite lookup_review_view. rewrite decide_False by discriminate.
      by rewrite decide_True by (by repeat (try (by left); right)).
    + apply lookup_insert_eq.
    + rewrite lookup_review_props.
      by rewrite decide_True by (by repeat (try (by left); right)).
  - intros [r Hr] run. subst run.
    rewrite (edit_review_found _ _ _ _ _ Hv Hr (Hrs _ _ Hr)).
    exists (jsonify (review_view id (edited content v r)) 200), (edited content v r).
    cbn [outcome final reviews]. unfold body_field. cbn [body status jsonify].
    split_and!; try done.
    + rewrite lookup_review_view. rewrite decide_False by discriminate.
      rewrite decide_True by (by repeat (try (by left); right)).
      by rewrite lookup_edited.
    + apply lookup_insert_eq.
    + by rewrite lookup_edited.
Qed.

(** C10. 400 before 404: [edit_business] with a payload that lacks a
    required field answers 400 though no business is stored under the
    id, and [create_review] with a payload that lacks a required field
    answers 400 though no business is stored under the payload's
    [business_id]; neither writes anything. *)
Theorem validation_before_lookup (id : Z) (content : gmap string json) (s : Store) :
  ((exists f, f ∈ required_business /\ content !! f = None) ->
   businesses s !! id = None ->
   edit_business id content s = MkRun (inr (error missing_attributes 400)) s []) /\
  ((exists f, f ∈ required_review /\ content !! f = None) ->
   (forall bv, content !! "business_id" = Some bv -> business_of s bv = None) ->
   create_review id content s = MkRun (inr (error missing_attributes 400)) s []).
Proof.
  split.
  - intros H%missing_field _. by apply edit_business_invalid.
  - intros H%missing_field _. by apply create_review_invalid.
Qed.

Lemma validation_before_lookup_witness :
  edit_business 999 (delete "zip_code" acme) one_review =
    MkRun (inr (error missing_attributes 400)) one_review [] /\
  create_review 4 (delete "stars" (<["business_id" := JInt 999]> praise)) one_review =
    MkRun (inr (error missing_attributes 400)) one_review [].
Proof.
  split.
  - apply (validation_before_lookup 999 (delete "zip_code" acme) one_review).
    + exists "zip_code". split; [|reflexivity]. by repeat (try (by left); right).
    + reflexivity.
  - apply (validation_before_lookup 4
             (delete "stars" (<["business_id" := JInt 999]> praise)) one_review).
    + exists "stars". split; [|reflexivity]. by repeat (try (by left); right).
    + intros bv Hbv.
      assert (bv = JInt 999) as -> by (vm_compute in Hbv; congruence).
      reflexivity.
Defined.

(** * Further properties *)

(** ** The list handlers *)

Lemma map_each_business_dict (k : Kind) (l : list (Z * gmap string json)) (s : Store) :
  Forall (fun ip => has_fields required_business (snd ip)) l ->
  map_each (map (fun ip => MkEntity (MkKey k (Some (JInt (fst ip)))) (snd ip)) l)
    business_dict s =
  MkRun (inr (map (fun ip => business_view (fst ip) (snd ip)) l)) s [].
Proof.
  induction 1 as [|[i p] l Hp Hl IH]; [done|]. cbn [map map_each fst snd].
  rewrite (bind_pure _ _ _ _ (business_dict_ok _ _ _ _ Hp)).
  by rewrite (bind_pure _ _ _ _ IH).
Qed.

Lemma map_each_review_dict (k : Kind) (l : list (Z * gmap string json)) (s : Store) :
  Forall (fun ip => has_fields required_review (snd ip)) l ->
  map_each (map (fun ip => MkEntity (MkKey k (Some (JInt (fst ip)))) (snd ip)) l)
    review_dict s =
  MkRun (inr (map (fun ip => review_view (fst ip) (snd ip)) l)) s [].
Proof.
  induction 1 as [|[i p] l Hp Hl IH]; [done|]. cbn [map map_each fst snd].
  rewrite (bind_pure _ _ _ _ (review_dict_ok _ _ _ _ Hp)).
  by rewrite (bind_pure _ _ _ _ IH).
Qed.

Lemma selected_Forall (P : gmap string json -> Prop) (q : Query)
    (m : gmap Z (gmap string json)) :
  map_Forall (fun _ p => P p) m -> Forall (fun ip => P (snd ip)) (selected q m).
Proof.
  intros H. apply Forall_forall. intros [i p] [Hp _]%elem_of_selected. by apply (H i).
Qed.

Lemma selected_NoDup (q : Query) (m : gmap Z (gmap string json)) :
  NoDup (selected q m).*1.
Proof.
  apply (sublist_NoDup _ (map_to_list m).*1); [apply NoDup_fst_map_to_list|].
  unfold selected. apply fmap_sublist, sublist_filter.
Qed.

Lemma matches_all (k : Kind) (p : gmap string json) : matches (client_query k) p = true.
Proof. done. Qed.

Lemma list_businesses_run (s : Store) :
  store_ok s ->
  list_businesses s =
    MkRun (inr (jsonify_list
                  (map (fun ip => business_view (fst ip) (snd ip))
                     (selected (client_query Business) (businesses s))) 200)) s [].
Proof.
  intros [Hb _]. unfold list_businesses.
  rewrite (bind_pure _ _ _ _ (fetch_selected _ _)). cbn [q_kind client_query kind_map].
  by rewrite (bind_pure _ _ _ _
                (map_each_business_dict _ _ _ (selected_Forall _ _ _ Hb))).
Qed.

Lemma list_owner_businesses_run (owner_id : Z) (s : Store) :
  store_ok s ->
  list_owner_businesses owner_id s =
    MkRun (inr (jsonify_list
                  (map (fun ip => business_view (fst ip) (snd ip))
                     (selected (add_filter (client_query Business) "owner_id" (JInt owner_id))
                        (businesses s))) 200)) s [].
Proof.
  intros [Hb _]. unfold list_owner_businesses.
  rewrite (bind_pure _ _ _ _ (fetch_selected _ _)).
  cbn [q_kind client_query add_filter kind_map].
  by rewrite (bind_pure _ _ _ _
                (map_each_business_dict _ _ _ (selected_Forall _ _ _ Hb))).
Qed.

Lemma list_user_reviews_run (user_id : Z) (s : Store) :
  store_ok s ->
  list_user_reviews user_id s =
    MkRun (inr (jsonify_list
                  (map (fun ip => review_view (fst ip) (snd ip))
                     (selected (add_filter (client_query Review) "user_id" (JInt user_id))
                        (reviews s))) 200)) s [].
Proof.
  intros [_ Hr]. unfold list_user_reviews.
  rewrite (bind_pure _ _ _ _ (fetch_selected _ _)).
  cbn [q_kind client_query add_filter kind_map].
  by rewrite (bind_pure _ _ _ _
                (map_each_review_dict _ _ _ (selected_Forall _ _ _ Hr))).
Qed.

(** X1. [list_businesses], in a store of the data model: 200 with one
    body for each stored business and no other, each stored business
    once, the body being its id and six fields; nothing is written. *)
Theorem list_businesses_all (s : Store) :
  store_ok s ->
  exists ips : list (Z * gmap string json),
    list_businesses s =
      MkRun (inr (jsonify_list (map (fun ip => business_view (fst ip) (snd ip)) ips) 200))
        s [] /\
    NoDup ips.*1 /\
    forall id p, (id, p) ∈ ips <-> businesses s !! id = Some p.
Proof.
  intros Hok. exists (selected (client_query Business) (businesses s)). split_and!.
  - by apply list_businesses_run.
  - apply selected_NoDup.
  - intros id p. rewrite elem_of_selected, matches_all. tauto.
Qed.

Lemma list_businesses_all_witness :
  list_businesses one_review =
    MkRun (inr (jsonify_list [business_view 7 acme] 200)) one_review [].
Proof.
  destruct (list_businesses_all one_review) as (ips & -> & Hnd & Hin).
  - apply (bool_decide_unpack _). vm_compute. exact I.
  - do 3 f_equal. destruct ips as [|[i p] [|[j q] ips]].
    + assert ((7, acme) ∈ []) as H by (by apply Hin). by apply not_elem_of_nil in H.
    + assert ((7, acme) ∈ [(i, p)]) as H by (by apply Hin).
      apply list_elem_of_singleton in H. by injection H as <- <-.
    + exfalso.
      assert (businesses one_review !! i = Some p) as Hi by (apply Hin; by left).
      assert (businesses one_review !! j = Some q) as Hj by (apply Hin; by right; left).
      unfold one_review in Hi, Hj. cbn [businesses] in Hi, Hj.
      apply lookup_singleton_Some in Hi as [<- _].
      apply lookup_singleton_Some in Hj as [<- _].
      cbn in Hnd. apply NoDup_cons in Hnd as [Hn _]. apply Hn. by left.
Defined.





(** ** What every request does *)

Lemma status_then_jsonify {A : Type} (m : M A) (f : A -> gmap string json) (c : Z) (s : Store) :
  status_code (MkRun (outcome (bind m (fun a => ret (jsonify (f a) c)) s)) s []) = c \/
  status_code (MkRun (outcome (bind m (fun a => ret (jsonify (f a) c)) s)) s []) = 500.
Proof.
  unfold status_code, bind. cbn [outcome].
  destruct (outcome (m s)); cbn [outcome ret jsonify status]; auto.
Qed.

Lemma edit_review_run (review_id : Z) (content : gmap string json) (v : json)
    (r : gmap string json) (s : Store) :
  content !! "stars" = Some v ->
  reviews s !! review_id = Some r -> r ≠ ∅ ->
  edit_review review_id content s =
    MkRun
      (outcome
         ((response <- review_dict
             (MkEntity (MkKey Review (Some (JInt review_id))) (edited content v r)) ;;
           ret (jsonify response 200))
            (MkStore (businesses s) (<[review_id := edited content v r]> (reviews s)))))
      (MkStore (businesses s) (<[review_id := edited content v r]> (reviews s)))
      [WPut (MkKey Review (Some (JInt review_id))) (edited content v r)].
Proof.
  intros Hv Hr Hne. unfold edit_review, contains. rewrite Hv. cbn [negb].
  rewrite (bind_pure _ _ _ _ (client_get_id _ _ _)).
  cbn [kind_map]. rewrite Hr. cbn [fmap option_fmap option_map].
  rewrite truthy_some by done.
  rewrite (bind_pure _ _ _ _ (getitem_ok _ _ _ _ Hv)).
  rewrite (bind_pure _ _ (MkEntity (MkKey Review (Some (JInt review_id))) (edited content v r))).
  2:{ unfold edited, getitem, setitem, client_key. cbn [props entity_key].
      by destruct (content !! "review_text"). }
  rewrite (bind_step _ _ _ _ _ _ (client_put_run _ _)).
  cbn [apply_write stored_id id_or_name kind entity_key props set_kind_map kind_map].
  assert (read_only (response <- review_dict
            (MkEntity (MkKey Review (Some (JInt review_id))) (edited content v r)) ;;
          ret (jsonify response 200))) as Hro.
  { apply read_only_bind; [apply read_only_review_dict|]. intros ?. apply read_only_ret. }
  destruct (Hro (MkStore (businesses s) (<[review_id := edited content v r]> (reviews s))))
    as [Hf Ht]. by rewrite Hf, Ht.
Qed.

Lemma effect_read_only (req : Request) (m : M Response) (s : Store) :
  read_only m -> effect s req (status_code (m s)) (final (m s)) (trace (m s)).
Proof. intros H. destruct (H s) as [Hf Ht]. rewrite Hf, Ht. apply e_none. Qed.

(** Every request comes to one of these effects. *)
Lemma handle_effect (new_id : Z) (req : Request) (s : Store) :
  effect s req (status_code (handle new_id req s)) (final (handle new_id req s))
    (trace (handle new_id req s)).
Proof.
  destruct req as [content|id| |id content|id|owner|content|id|id content|id|user];
    cbn [handle].
  - destruct (valid_or_not required_business content) as [H|H].
    + rewrite (create_business_valid _ _ _ H). by apply e_create_business.
    + rewrite (create_business_invalid _ _ _ H). apply e_none.
  - apply effect_read_only, read_only_get_business.
  - apply effect_read_only, read_only_list_businesses.
  - destruct (valid_or_not required_business content) as [H|H].
    + destruct (absent_dec (businesses s !! id)) as [Ha|(b & Hb & Hne)].
      * rewrite (edit_business_absent _ _ _ H Ha). apply e_none.
      * rewrite (edit_business_found _ _ _ _ H Hb Hne). by apply e_edit_business.
    + rewrite (edit_business_invalid _ _ _ H). apply e_none.
  - destruct (absent_dec (businesses s !! id)) as [Ha|(b & Hb & Hne)].
    + rewrite (delete_business_absent _ _ Ha). apply e_none.
    + rewrite (delete_business_found _ _ _ Hb Hne). by apply (e_delete_business s id b).
  - apply effect_read_only, read_only_list_owner_businesses.
  - destruct (valid_or_not required_review content) as [H|H].
    + destruct (proj1 (has_fields_lookup _ _) H "user_id") as [u Hu];
        [by left|].
      destruct (proj1 (has_fields_lookup _ _) H "business_id") as [bv Hbv];
        [by right; left|].
      destruct (absent_dec (business_of s bv)) as [Ha|(b & Hb & Hne)].
      * rewrite (create_review_no_business _ _ _ _ H Hbv Ha). apply e_none.
      * destruct (reviewed_dec s u bv) as [Hr|Hr].
        -- rewrite (create_review_conflict _ _ _ _ _ _ H Hu Hbv Hb Hne Hr). apply e_none.
        -- rewrite (create_review_created _ _ _ _ _ _ H Hu Hbv Hb Hne Hr).
           by apply (e_create_review s new_id content u bv b).
    + rewrite (create_review_invalid _ _ _ H). apply e_none.
  - apply effect_read_only, read_only_get_review.
  - destruct (content !! "stars") as [v|] eqn:Hv.
    + destruct (absent_dec (reviews s !! id)) as [Ha|(r & Hr & Hne)].
      * rewrite (edit_review_absent _ _ _ _ Hv Ha). apply e_none.
      * rewrite (edit_review_run _ _ _ _ _ Hv Hr Hne). cbn [final trace].
        apply (e_edit_review s _ id content v r); [|done..].
        apply (status_then_jsonify _ (fun response => response)).
    + rewrite (edit_review_invalid _ _ _ Hv). apply e_none.
  - destruct (absent_dec (reviews s !! id)) as [Ha|(r & Hr & Hne)].
    + rewrite (delete_review_absent _ _ Ha). apply e_none.
    + rewrite (delete_review_found _ _ _ Hr Hne). by apply (e_delete_review s id r).
  - apply effect_read_only, read_only_list_user_reviews.
Qed.

(** X4. The five [GET] handlers write nothing and leave the store as it
    was, in every store and also when they stop on a [KeyError]. *)
Theorem get_requests_read_only (new_id : Z) (req : Request) (s : Store) :
  is_get req = true ->
  final (handle new_id req s) = s /\ trace (handle new_id req s) = [].
Proof.
  destruct req; try discriminate; intros _; cbn [handle].
  - apply read_only_get_business.
  - apply read_only_list_businesses.
  - apply read_only_list_owner_businesses.
  - apply read_only_get_review.
  - apply read_only_list_user_reviews.
Qed.

Lemma get_requests_read_only_witness :
  final (handle 0 (GetUserReviews 9) one_review) = one_review /\
  trace (handle 0 (GetUserReviews 9) one_review) = [].
Proof. apply (get_requests_read_only 0 (GetUserReviews 9) one_review). reflexivity. Defined.

(** X5. The writes of a request: the store a handler leaves is the store
    it found with its writes applied in order; a request other than
    [DELETE /businesses/<id>] makes at most one write, and that one makes
    none or one delete for each review of the business and one for the
    business. *)
Theorem request_writes (new_id : Z) (req : Request) (s : Store) :
  let run := handle new_id req s in
  final run = foldl apply_write s (trace run) /\
  match req with
  | DeleteBusiness id =>
      trace run = [] \/ length (trace run) = S (length (reviews_of id s))
  | _ => (length (trace run) <= 1)%nat
  end.
Proof.
  intros run. subst run. split.
  - destruct (handle_effect new_id req s); try done.
    rewrite foldl_app, foldl_apply_deletes. cbn [foldl apply_write stored_id id_or_name
      kind set_kind_map kind_map businesses reviews]. f_equal.
    unfold reviews_of. rewrite foldl_delete_selected.
    apply map_filter_ext. intros i p _. cbn [snd]. by rewrite matches_eq1.
  - destruct (handle_effect new_id req s) as [req c| | | | | |]; cbn [length]; try lia.
    + destruct req; cbn [length]; try lia. by left.
    + right. rewrite length_app, length_map. cbn [length]. lia.
Qed.

(** X6. The data model is an invariant: every store reachable from the
    empty store has the six required properties on each business and
    [user_id], [business_id] and [stars] on each review, and every
    request keeps it so in a store where it holds. *)
Theorem data_model_invariant (s : Store) :
  (reachable s -> store_ok s) /\
  (store_ok s -> forall (new_id : Z) (req : Request), store_ok (final (handle new_id req s))).
Proof.
  split; [apply reachable_store_ok|].
  intros Hok new_id req. eapply transition_store_ok; [apply handle_transition | done].
Qed.

Lemma data_model_invariant_witness :
  store_ok (final (handle 3 (PostReviews praise) one_business)) /\
  store_ok (final (handle 7 (PostBusinesses acme) empty_store)).
Proof.
  split.
  - apply (proj2 (data_model_invariant one_business)).
    apply (bool_decide_unpack _). vm_compute. exact I.
  - apply (proj1 (data_model_invariant (final (handle 7 (PostBusinesses acme) empty_store)))).
    apply reachable_handle; [apply reachable_empty | reflexivity].
Defined.

(** Over the storage collaborator of the spec, whose [Get] and [Put]
    never fail.  In a store of the data model no handler stops on an exception,
    and each answers one of the statuses of its [return] statements:
    201 or 400 for [create_business]; 200 or 404 for the two gets; 200
    for the three lists; 200, 400 or 404 for the two edits; 204 or 404
    for the two deletes; 201, 400, 404 or 409 for [create_review]. *)
Lemma handle_statuses (new_id : Z) (req : Request) (s : Store) :
  store_ok s ->
  status_code (handle new_id req s) ∈ statuses req /\
  exists resp, outcome (handle new_id req s) = inr resp.
Proof.
  intros Hok. pose proof Hok as [Hbs Hrs].
  destruct req as [content|id| |id content|id|owner|content|id|id content|id|user];
    cbn [handle statuses].
  - destruct (valid_or_not required_business content) as [H|H].
    + rewrite (create_business_valid _ _ _ H). split; [by left | by eexists].
    + rewrite (create_business_invalid _ _ _ H). split; [by right; left | by eexists].
  - destruct (businesses s !! id) as [b|] eqn:Hb.
    + rewrite (get_business_found _ _ _ Hb (Hbs _ _ Hb)). split; [by left | by eexists].
    + rewrite get_business_absent by (by left). split; [by right; left | by eexists].
  - rewrite (list_businesses_run _ Hok). split; [by left | by eexists].
  - destruct (valid_or_not required_business content) as [H|H].
    + destruct (businesses s !! id) as [b|] eqn:Hb.
      * rewrite (edit_business_found _ _ _ _ H Hb (has_fields_nonempty _ _ _ (Hbs _ _ Hb))).
        split; [by left | by eexists].
      * rewrite edit_business_absent by (done || by left).
        split; [by right; right; left | by eexists].
    + rewrite (edit_business_invalid _ _ _ H). split; [by right; left | by eexists].
  - destruct (businesses s !! id) as [b|] eqn:Hb.
    + rewrite (delete_business_found _ _ _ Hb (has_fields_nonempty _ _ _ (Hbs _ _ Hb))).
      split; [by left | by eexists].
    + rewrite delete_business_absent by (by left). split; [by right; left | by eexists].
  - rewrite (list_owner_businesses_run _ _ Hok). split; [by left | by eexists].
  - destruct (valid_or_not required_review content) as [H|H].
    + destruct (proj1 (has_fields_lookup _ _) H "user_id") as [u Hu];
        [by left|].
      destruct (proj1 (has_fields_lookup _ _) H "business_id") as [bv Hbv];
        [by right; left|].
      destruct (absent_dec (business_of s bv)) as [Ha|(b & Hb & Hne)].
      * rewrite (create_review_no_business _ _ _ _ H Hbv Ha).
        split; [by right; right; left | by eexists].
      * destruct (reviewed_dec s u bv) as [Hr|Hr].
        -- rewrite (create_review_conflict _ _ _ _ _ _ H Hu Hbv Hb Hne Hr).
           split; [by right; right; right; left | by eexists].
        -- rewrite (create_review_created _ _ _ _ _ _ H Hu Hbv Hb Hne Hr).
           split; [by left | by eexists].
    + rewrite (create_review_invalid _ _ _ H). split; [by right; left | by eexists].
  - destruct (reviews s !! id) as [r|] eqn:Hr.
    + rewrite (get_review_found _ _ _ Hr (Hrs _ _ Hr)). split; [by left | by eexists].
    + rewrite get_review_absent by (by left). split; [by right; left | by eexists].
  - destruct (content !! "stars") as [v|] eqn:Hv.
    + destruct (reviews s !! id) as [r|] eqn:Hr.
      * rewrite (edit_review_found _ _ _ _ _ Hv Hr (Hrs _ _ Hr)).
        split; [by left | by eexists].
      * rewrite (edit_review_absent _ _ v) by (done || by left).
        split; [by right; right; left | by eexists].
    + rewrite (edit_review_invalid _ _ _ Hv). split; [by right; left | by eexists].
  - destruct (reviews s !! id) as [r|] eqn:Hr.
    + rewrite (delete_review_found _ _ _ Hr (has_fields_nonempty _ _ _ (Hrs _ _ Hr))).
      split; [by left | by eexists].
    + rewrite delete_review_absent by (by left). split; [by right; left | by eexists].
  - rewrite (list_user_reviews_run _ _ Hok). split; [by left | by eexists].
Qed.

(** Over the storage collaborator of the spec, whose [Get] and [Put]
    never fail.  No orphan review: in every store reachable from the empty
    store, each review's [business_id] is the integer id of a stored
    business; and every request keeps it so in a store where it holds
    ([create_review] looks the business up before it writes,
    [edit_review] never touches [business_id], [delete_business]
    deletes the reviews of the business with it). *)
Lemma no_orphan_review (s : Store) :
  (reachable s -> refs_ok s) /\
  (refs_ok s -> forall (new_id : Z) (req : Request), refs_ok (final (handle new_id req s))).
Proof.
  assert (forall s new_id req, refs_ok s -> refs_ok (final (handle new_id req s))) as Hstep.
  { clear s. intros s new_id req Hs.
    destruct (handle_effect new_id req s)
      as [req c|id content Hc|id content b Hc Hb|id b Hb|id content u bv b Hc Hu Hbv Hb Hnr
         |c id content v r Hcode Hv Hr|id r Hr]; try done; intros i ri; cbn [reviews businesses].
    - intros Hi. destruct (Hs i ri Hi) as (z & Hz & Hbz). exists z. split; [done|].
      apply lookup_insert_is_Some. destruct (decide (id = z)); auto.
    - intros Hi. destruct (Hs i ri Hi) as (z & Hz & Hbz). exists z. split; [done|].
      apply lookup_insert_is_Some. destruct (decide (id = z)); auto.
    - intros [Hi Hne]%map_lookup_filter_Some. cbn [snd] in Hne.
      destruct (Hs i ri Hi) as (z & Hz & Hbz). exists z. split; [done|].
      rewrite lookup_delete_ne; [done|]. intros ->. by apply Hne.
    - destruct (decide (i = id)) as [->|Hne].
      + rewrite lookup_insert_eq. intros [= <-].
        destruct bv; try done. exists z. split; [|by eexists].
        rewrite lookup_review_props. by rewrite decide_True by (by repeat (try (by left); right)).
      + rewrite lookup_insert_ne by done. apply Hs.
    - destruct (decide (i = id)) as [->|Hne].
      + rewrite lookup_insert_eq. intros [= <-].
        destruct (Hs id r Hr) as (z & Hz & Hbz). exists z. split; [|done].
        by rewrite lookup_edited.
      + rewrite lookup_insert_ne by done. apply Hs.
    - intros [_ Hi]%lookup_delete_Some. exact (Hs i ri Hi). }
  split; [|by auto].
  induction 1 as [|s new_id req Hs IH Hid]; [|by apply Hstep].
  intros i r Hi. unfold empty_store in Hi. cbn [reviews] in Hi.
  by rewrite lookup_empty in Hi.
Qed.

(** X9. An error answer means nothing was written: whenever a request is
    answered 400, 404 or 409, in any store, the store is left as it was
    and no write was made. *)
Theorem errors_write_nothing (new_id : Z) (req : Request) (s : Store) :
  status_code (handle new_id req s) ∈ [400; 404; 409] ->
  final (handle new_id req s) = s /\ trace (handle new_id req s) = [].
Proof.
  destruct (handle_effect new_id req s)
    as [req c|id content Hc|id content b Hc Hb|id b Hb|id content u bv b Hc Hu Hbv Hb Hnr
       |c id content v r Hcode Hv Hr|id r Hr]; [done|..]; intros H; exfalso;
    repeat (apply elem_of_cons in H as [H|H]; [try discriminate; try lia|]);
    by apply not_elem_of_nil in H.
Qed.

Lemma errors_write_nothing_witness :
  final (handle 4 (PostReviews praise) one_review) = one_review /\
  trace (handle 4 (PostReviews praise) one_review) = [].
Proof.
  apply (errors_write_nothing 4 (PostReviews praise) one_review).
  by repeat (try (by left); right).
Defined.

(** ** Single requests: what is stored and what is left alone *)

(** Over the storage collaborator of the spec, whose [Get] and [Put]
    never fail.  [create_business] stores the six required fields and nothing
    else of the payload, under the generated id, and answers 201
    whatever is already stored (no duplicate check); every business
    under another id and every review are left as they were. *)
Lemma create_business_stores_six (new_id : Z) (content : gmap string json) (s : Store) :
  has_fields required_business content ->
  let run := create_business new_id content s in
  status_code run = 201 /\
  (exists p : gmap string json,
     businesses (final run) !! new_id = Some p /\
     forall f, p !! f = if decide (f ∈ required_business) then content !! f else None) /\
  (forall j, j ≠ new_id -> businesses (final run) !! j = businesses s !! j) /\
  reviews (final run) = reviews s.
Proof.
  intros Hc run. subst run. rewrite (create_business_valid _ _ _ Hc).
  cbn [final businesses reviews]. split_and!; try done.
  - exists (restrict required_business content). split; [apply lookup_insert_eq|].
    intros f. apply lookup_restrict.
  - intros j Hj. by rewrite lookup_insert_ne.
Qed.

Lemma edited_idemp (content : gmap string json) (v : json) (r : gmap string json) :
  edited content v (edited content v r) = edited content v r.
Proof.
  apply map_eq. intros f. rewrite !lookup_edited.
  destruct (decide (f = "review_text")) as [->|?].
  - by destruct (content !! "review_text").
  - by destruct (decide (f = "stars")).
Qed.

(** X11. Both [PUT] handlers are idempotent: sent again with the same
    payload, [edit_business] and [edit_review] give the same answer and
    leave the store as the first request left it. *)
Theorem put_idempotent (id : Z) (content : gmap string json) (s : Store) :
  (has_fields required_business content ->
   forall b, businesses s !! id = Some b -> b ≠ ∅ ->
     let once := edit_business id content s in
     outcome (edit_business id content (final once)) = outcome once /\
     final (edit_business id content (final once)) = final once) /\
  (forall v r, content !! "stars" = Some v ->
     reviews s !! id = Some r -> has_fields required_review r ->
     let once := edit_review id content s in
     outcome (edit_review id content (final once)) = outcome once /\
     final (edit_review id content (final once)) = final once).
Proof.
  split.
  - intros Hc b Hb Hne once. subst once.
    rewrite (edit_business_found _ _ _ _ Hc Hb Hne). cbn [final outcome].
    rewrite (edit_business_found id content (restrict required_business content ∪ b)).
    + cbn [outcome final businesses reviews].
      by rewrite insert_insert_eq, (assoc_L (∪)), (idemp_L (∪)).
    + done.
    + cbn [businesses]. apply lookup_insert_eq.
    + eapply has_fields_nonempty. by apply has_fields_union.
  - intros v r Hv Hr Hok once. subst once.
    rewrite (edit_review_found _ _ _ _ _ Hv Hr Hok). cbn [final outcome].
    rewrite (edit_review_found id content v (edited content v r)).
    + cbn [outcome final businesses reviews]. by rewrite insert_insert_eq, edited_idemp.
    + done.
    + cbn [reviews]. apply lookup_insert_eq.
    + by apply has_fields_edited.
Qed.

Lemma put_idempotent_witness :
  final (edit_review 3 {[ "stars" := JInt 2 ]}
           (final (edit_review 3 {[ "stars" := JInt 2 ]} one_review))) =
    final (edit_review 3 {[ "stars" := JInt 2 ]} one_review) /\
  final (edit_business 7 acme (final (edit_business 7 acme one_review))) =
    final (edit_business 7 acme one_review).
Proof.
  destruct (put_idempotent 3 {[ "stars" := JInt 2 ]} one_review) as [_ Hr].
  destruct (put_idempotent 7 acme one_review) as [Hb _].
  split.
  - by apply (Hr (JInt 2) praise).
  - apply (Hb eq_refl acme eq_refl).
    apply (bool_decide_eq_false_1 (acme = ∅)). vm_compute. reflexivity.
Defined.



(** X13. What [delete_business] leaves alone: every business under
    another id, and every review whose [business_id] is not the id; no
    review appears.  Afterwards [create_review] for that business id is
    answered 404. *)
Theorem delete_business_frame (business_id : Z) (b : gmap string json) (s : Store) :
  businesses s !! business_id = Some b -> b ≠ ∅ ->
  let after := final (delete_business business_id s) in
  (forall j, j ≠ business_id -> businesses after !! j = businesses s !! j) /\
  (forall i r, reviews s !! i = Some r -> r !! "business_id" ≠ Some (JInt business_id) ->
     reviews after !! i = Some r) /\
  (forall i r, reviews after !! i = Some r -> reviews s !! i = Some r) /\
  (forall new_id content, has_fields required_review content ->
     content !! "business_id" = Some (JInt business_id) ->
     create_review new_id content after = MkRun (inr (error no_business 404)) after []).
Proof.
  intros Hb Hne after. subst after. rewrite (delete_business_found _ _ _ Hb Hne).
  cbn [final businesses reviews]. split_and!.
  - intros j Hj. by rewrite lookup_delete_ne.
  - intros i r Hr Hrb. by apply map_lookup_filter_Some.
  - by intros i r [Hr _]%map_lookup_filter_Some.
  - intros new_id content Hc Hcb.
    apply (create_review_no_business _ _ (JInt business_id)); [done..|].
    left. cbn [business_of businesses]. apply lookup_delete_eq.
Qed.

Lemma delete_business_frame_witness :
  create_review 4 praise (final (delete_business 7 one_review)) =
    MkRun (inr (error no_business 404)) (final (delete_business 7 one_review)) [].
Proof.
  destruct (delete_business_frame 7 acme one_review) as (_ & _ & _ & H).
  - reflexivity.
  - apply (bool_decide_eq_false_1 (acme = ∅)). vm_compute. reflexivity.
  - by apply H.
Defined.

(** X14. [delete_review] answers 204 and removes that review only: the
    businesses and the other reviews are left as they were (there is no
    cascade); asked again, or asked for with [get_review], the id is
    answered 404. *)
Theorem delete_review_only (review_id : Z) (r : gmap string json) (s : Store) :
  reviews s !! review_id = Some r -> r ≠ ∅ ->
  let run := delete_review review_id s in
  outcome run = inr (MkResponse (BText EmptyString) 204) /\
  businesses (final run) = businesses s /\
  reviews (final run) !! review_id = None /\
  (forall j, j ≠ review_id -> reviews (final run) !! j = reviews s !! j) /\
  delete_review review_id (final run) = MkRun (inr (error no_review 404)) (final run) [] /\
  get_review review_id (final run) = MkRun (inr (error no_review 404)) (final run) [].
Proof.
  intros Hr Hne run. subst run. rewrite (delete_review_found _ _ _ Hr Hne).
  cbn [outcome final businesses reviews]. split_and!; try done.
  - apply lookup_delete_eq.
  - intros j Hj. by rewrite lookup_delete_ne.
  - apply delete_review_absent. left. cbn [reviews]. apply lookup_delete_eq.
  - apply get_review_absent. left. cbn [reviews]. apply lookup_delete_eq.
Qed.

Lemma delete_review_only_witness :
  businesses (final (delete_review 3 one_review)) = businesses one_review /\
  delete_review 3 (final (delete_review 3 one_review)) =
    MkRun (inr (error no_review 404)) (final (delete_review 3 one_review)) [].
Proof.
  destruct (delete_review_only 3 praise one_review) as (_ & Hb & _ & _ & Hd & _).
  - reflexivity.
  - apply (bool_decide_eq_false_1 (praise = ∅)). vm_compute. reflexivity.
  - by split.
Defined.

(** ** Requests one after the other *)



(** Over the storage collaborator of the spec, whose [Get] and [Put]
    never fail.  Delete, then create again: where a user's review of a business
    is stored (so that [create_review] for the pair is answered 409),
    after [delete_review] of that review a [create_review] for the same
    pair is answered 201, as the 409 message says. *)
Lemma recreate_after_delete (review_id new_id : Z) (r content : gmap string json)
    (u bv : json) (s : Store) :
  store_ok s -> unique_reviews s ->
  reviews s !! review_id = Some r ->
  r !! "user_id" = Some u -> r !! "business_id" = Some bv ->
  has_fields required_review content ->
  content !! "user_id" = Some u -> content !! "business_id" = Some bv ->
  is_Some (business_of s bv) ->
  create_review new_id content s = MkRun (inr (error already_reviewed 409)) s [] /\
  status_code (create_review new_id content (final (delete_review review_id s))) = 201.
Proof.
  intros [Hbs Hrs] Huniq Hr Hru Hrb Hc Hu Hbv [b Hb].
  assert (b ≠ ∅) as Hne.
  { destruct bv; try done. cbn [business_of] in Hb.
    eapply has_fields_nonempty. apply (Hbs _ _ Hb). }
  split.
  - apply (create_review_conflict _ _ u bv b); try done. by exists review_id, r.
  - rewrite (delete_review_found _ _ _ Hr (has_fields_nonempty _ _ _ (Hrs _ _ Hr))).
    cbn [final].
    rewrite (create_review_created _ _ u bv b); try done.
    intros (j & rj & Hj & Hju & Hjb). cbn [reviews] in Hj.
    apply lookup_delete_Some in Hj as [Hne' Hj]. apply Hne'.
    apply (Huniq review_id j r rj); congruence.
Qed.

(** ** What the gets answer *)

(** X17. The bodies of the gets: for a stored business with its six
    properties [get_business] answers 200 with [id] and the six
    properties as stored and no other entry; for a stored review with
    its three, [get_review] answers 200 with [id], the three as stored,
    [review_text] when and only when the review has one, and no other
    entry. *)
Theorem get_bodies (id : Z) (p : gmap string json) (s : Store) :
  (businesses s !! id = Some p -> has_fields required_business p ->
   exists d : gmap string json,
     get_business id s = MkRun (inr (jsonify d 200)) s [] /\
     forall f, d !! f =
       if decide (f = "id") then Some (JInt id)
       else if decide (f ∈ required_business) then p !! f else None) /\
  (reviews s !! id = Some p -> has_fields required_review p ->
   exists d : gmap string json,
     get_review id s = MkRun (inr (jsonify d 200)) s [] /\
     forall f, d !! f =
       if decide (f = "id") then Some (JInt id)
       else if decide (f ∈ ["review_text"; "user_id"; "business_id"; "stars"]) then p !! f
       else None).
Proof.
  split; intros Hp Hok.
  - exists (business_view id p). split; [by apply get_business_found|].
    apply lookup_business_view.
  - exists (review_view id p). split; [by apply get_review_found|].
    apply lookup_review_view.
Qed.

Lemma get_bodies_witness :
  exists d : gmap string json,
    get_review 3 one_review = MkRun (inr (jsonify d 200)) one_review [] /\
    d !! "review_text" = Some (JStr "great") /\ d !! "id" = Some (JInt 3).
Proof.
  destruct (get_bodies 3 praise one_review) as [_ H].
  destruct (H eq_refl eq_refl) as (d & Hd & Hf).
  exists d. split; [done|]. by rewrite !Hf.
Defined.

(** ** Stored entities the handlers did not write *)

(** X18. An entity stored without any property is taken for none:
    [if not business] and [if not review] are true of it, so get, edit
    and delete answer 404 for its id and leave it in the store. *)
Theorem empty_entity_not_found (id : Z) (s : Store) :
  (businesses s !! id = Some ∅ ->
   get_business id s = MkRun (inr (error no_business 404)) s [] /\
   (forall content, has_fields required_business content ->
      edit_business id content s = MkRun (inr (error no_business 404)) s []) /\
   delete_business id s = MkRun (inr (error no_business 404)) s []) /\
  (reviews s !! id = Some ∅ ->
   get_review id s = MkRun (inr (error no_review 404)) s [] /\
   (forall content, is_Some (content !! "stars") ->
      edit_review id content s = MkRun (inr (error no_review 404)) s []) /\
   delete_review id s = MkRun (inr (error no_review 404)) s []).
Proof.
  split; intros H; split_and!.
  - apply get_business_absent. by right.
  - intros content Hc. apply edit_business_absent; [done|]. by right.
  - apply delete_business_absent. by right.
  - apply get_review_absent. by right.
  - intros content [v Hv]. apply (edit_review_absent _ _ v); [done|]. by right.
  - apply delete_review_absent. by right.
Qed.

Lemma empty_entity_not_found_witness :
  delete_review 5 (MkStore ∅ {[ 5 := ∅ ]}) =
    MkRun (inr (error no_review 404)) (MkStore ∅ {[ 5 := ∅ ]}) [].
Proof.
  destruct (empty_entity_not_found 5 (MkStore ∅ {[ 5 := ∅ ]})) as [_ H].
  by destruct (H eq_refl) as (_ & _ & Hd).
Defined.

Lemma bind_raise {A B : Type} (m : M A) (f : A -> M B) (e : Exn) (s s' : Store)
    (t : list Write) :
  m s = MkRun (inl e) s' t -> bind m f s = MkRun (inl e) s' t.
Proof. intros H. unfold bind. by rewrite H. Qed.




(** ** Created records in the lists *)





(** * The handlers over the client with its limits *)

(** ** What fits *)

Lemma valid_id_int64 (z : Z) : valid_id z -> int64 z = true.
Proof.
  unfold valid_id, int64, int64_bound. intros [H1 H2].
  apply andb_true_iff. split; [apply Z.leb_le | apply Z.ltb_lt]; lia.
Qed.

Lemma nonneg_int64 (z : Z) : 0 <= z < int64_bound -> int64 z = true.
Proof.
  unfold int64, int64_bound. intros [H1 H2].
  apply andb_true_iff. split; [apply Z.leb_le | apply Z.ltb_lt]; lia.
Qed.

Lemma fit_lookup (fs : list string) (d : gmap string json) (f : string) (v : json) :
  fit fs d = true -> f ∈ fs -> d !! f = Some v -> fits v = true.
Proof.
  unfold fit. rewrite forallb_forall. intros H Hf Hv.
  specialize (H f (proj1 (list_elem_of_In _ _) Hf)). by rewrite Hv in H.
Qed.

Lemma fit_all (fs : list string) (d : gmap string json) :
  (forall f v, f ∈ fs -> d !! f = Some v -> fits v = true) -> fit fs d = true.
Proof.
  intros H. unfold fit. apply forallb_forall. intros f Hf%list_elem_of_In.
  destruct (d !! f) as [v|] eqn:Hv; [by apply (H f) | done].
Qed.

Lemma storable_restrict (fs : list string) (d : gmap string json) :
  fit fs d = true -> storable (restrict fs d).
Proof.
  intros H f v. rewrite lookup_restrict.
  destruct (decide (f ∈ fs)) as [Hf|Hf]; [|done]. by apply (fit_lookup fs).
Qed.

Lemma storable_insert (f : string) (v : json) (p : gmap string json) :
  fits v = true -> storable p -> storable (<[f := v]> p).
Proof. intros Hv Hp. by apply map_Forall_insert_2. Qed.

Lemma storable_union (a b : gmap string json) :
  storable a -> storable b -> storable (a ∪ b).
Proof.
  intros Ha Hb f v [Hf|[_ Hf]]%lookup_union_Some_raw; [by apply (Ha f) | by apply (Hb f)].
Qed.

Lemma storable_review_props (content : gmap string json) :
  fit ("review_text" :: required_review) content = true -> storable (review_props content).
Proof.
  intros H f v. rewrite lookup_review_props.
  destruct (decide (f ∈ "review_text" :: required_review)) as [Hf|Hf]; [|done].
  by apply (fit_lookup ("review_text" :: required_review)).
Qed.

Lemma storable_edited (content : gmap string json) (v : json) (r : gmap string json) :
  storable r -> content !! "stars" = Some v ->
  fit ["stars"; "review_text"] content = true ->
  storable (edited content v r).
Proof.
  intros Hr Hv H f w. rewrite lookup_edited.
  destruct (decide (f = "review_text")) as [->|?].
  - destruct (content !! "review_text") as [t|] eqn:Ht; [|by apply (Hr "review_text")].
    intros [= <-]. apply (fit_lookup _ _ "review_text" t H); [|done].
    by right; left.
  - destruct (decide (f = "stars")) as [->|?]; [|by apply (Hr f)].
    intros [= <-]. apply (fit_lookup _ _ "stars" v H); [by left | done].
Qed.

(** ** The client *)

Lemma bind_same {A B : Type} (m m' : M A) (f : A -> M B) (s : Store) :
  m s = m' s -> bind m f s = bind m' f s.
Proof. intros H. unfold bind. by rewrite H. Qed.

Lemma strict_client_get_id (k : Kind) (id : Z) (s : Store) :
  int64 id = true ->
  Strict.client_get (client_key k (Some (JInt id))) s =
    client_get (client_key k (Some (JInt id))) s.
Proof. intros H. unfold Strict.client_get. cbn. by rewrite H. Qed.

Lemma strict_client_get_out (k : Kind) (id : Z) (s : Store) :
  int64 id = false ->
  Strict.client_get (client_key k (Some (JInt id))) s = MkRun (inl ValueError) s [].
Proof. intros H. unfold Strict.client_get. cbn. by rewrite H. Qed.

Lemma strict_fetch_ok (q : Query) :
  forallb (fun fv => fits (snd fv)) (q_filters q) = true -> Strict.fetch q = fetch q.
Proof. intros H. unfold Strict.fetch. by rewrite H. Qed.

Lemma strict_fetch_fails (q : Query) (s : Store) :
  forallb (fun fv => fits (snd fv)) (q_filters q) = false ->
  Strict.fetch q s = MkRun (inl ValueError) s [].
Proof. intros H. unfold Strict.fetch. by rewrite H. Qed.

Lemma strict_client_put_ok (key : Key) (p : gmap string json) (s : Store) :
  storable p -> Strict.client_put (MkEntity key p) s = client_put (MkEntity key p) s.
Proof. intros H. unfold Strict.client_put. cbn [props]. by rewrite bool_decide_eq_true_2. Qed.

Lemma strict_client_put_new_ok (new_id : Z) (key : Key) (p : gmap string json) (s : Store) :
  storable p ->
  Strict.client_put_new new_id (MkEntity key p) s = client_put_new new_id (MkEntity key p) s.
Proof.
  intros H. unfold Strict.client_put_new. cbn [props]. by rewrite bool_decide_eq_true_2.
Qed.

Lemma strict_client_put_fails (key : Key) (p : gmap string json) (s : Store) :
  ~ storable p -> Strict.client_put (MkEntity key p) s = MkRun (inl ValueError) s [].
Proof. intros H. unfold Strict.client_put. cbn [props]. by rewrite bool_decide_eq_false_2. Qed.

Lemma strict_client_put_new_fails (new_id : Z) (key : Key) (p : gmap string json) (s : Store) :
  ~ storable p -> Strict.client_put_new new_id (MkEntity key p) s = MkRun (inl ValueError) s [].
Proof.
  intros H. unfold Strict.client_put_new. cbn [props]. by rewrite bool_decide_eq_false_2.
Qed.

(** ** Within the limits the handlers are the handlers above *)

Lemma get_business_agrees (business_id : Z) (s : Store) :
  int64 business_id = true -> Strict.get_business business_id s = get_business business_id s.
Proof. intros H. apply bind_same. by apply strict_client_get_id. Qed.

Lemma get_review_agrees (review_id : Z) (s : Store) :
  int64 review_id = true -> Strict.get_review review_id s = get_review review_id s.
Proof. intros H. apply bind_same. by apply strict_client_get_id. Qed.

Lemma delete_business_agrees (business_id : Z) (s : Store) :
  int64 business_id = true ->
  Strict.delete_business business_id s = delete_business business_id s.
Proof.
  intros H. unfold Strict.delete_business.
  rewrite strict_fetch_ok by (cbn; by rewrite H).
  apply bind_same. by apply strict_client_get_id.
Qed.

Lemma list_owner_businesses_agrees (owner_id : Z) (s : Store) :
  int64 owner_id = true ->
  Strict.list_owner_businesses owner_id s = list_owner_businesses owner_id s.
Proof.
  intros H. unfold Strict.list_owner_businesses.
  by rewrite strict_fetch_ok by (cbn; by rewrite H).
Qed.

Lemma list_user_reviews_agrees (user_id : Z) (s : Store) :
  int64 user_id = true ->
  Strict.list_user_reviews user_id s = list_user_reviews user_id s.
Proof.
  intros H. unfold Strict.list_user_reviews.
  by rewrite strict_fetch_ok by (cbn; by rewrite H).
Qed.

Lemma delete_review_agrees (review_id : Z) (s : Store) :
  int64 review_id = true -> Strict.delete_review review_id s = delete_review review_id s.
Proof. intros H. apply bind_same. by apply strict_client_get_id. Qed.

Lemma create_business_agrees (new_id : Z) (content : gmap string json) (s : Store) :
  (has_fields required_business content -> storable (restrict required_business content)) ->
  Strict.create_business new_id content s = create_business new_id content s.
Proof.
  intros Hfit. destruct (valid_or_not required_business content) as [H|H].
  - rewrite (create_business_valid _ _ _ H).
    unfold Strict.create_business. rewrite H. cbn [negb].
    rewrite (bind_pure _ _ _ _ (project_ok _ _ _ H)).
    unfold update, new_entity, client_key. cbn [props entity_key].
    rewrite (right_id_L ∅ (∪)).
    rewrite (bind_same _ _ _ _ (strict_client_put_new_ok _ _ _ _ (Hfit H))).
    rewrite (bind_step _ _ _ _ _ _ (client_put_new_run _ _ _ _)).
    rewrite (bind_pure _ _ _ _ (business_dict_ok _ _ _ _ (has_fields_restrict _ _ H))).
    unfold business_view. by rewrite restrict_idemp.
  - rewrite (create_business_invalid _ _ _ H). unfold Strict.create_business. by rewrite H.
Qed.

Lemma edit_business_agrees (business_id : Z) (content : gmap string json) (s : Store) :
  int64 business_id = true ->
  (has_fields required_business content ->
   forall b, businesses s !! business_id = Some b -> b ≠ ∅ ->
     storable (restrict required_business content ∪ b)) ->
  Strict.edit_business business_id content s = edit_business business_id content s.
Proof.
  intros Hid Hfit. destruct (valid_or_not required_business content) as [Hc|Hc].
  - unfold Strict.edit_business. rewrite Hc. cbn [negb].
    rewrite (bind_same _ _ _ _ (strict_client_get_id _ _ _ Hid)).
    rewrite (bind_pure _ _ _ _ (client_get_id _ _ _)). cbn [kind_map].
    destruct (absent_dec (businesses s !! business_id)) as [Ha|(b & Hb & Hne)].
    + rewrite (edit_business_absent _ _ _ Hc Ha). by rewrite truthy_absent.
    + rewrite (edit_business_found _ _ _ _ Hc Hb Hne).
      rewrite Hb. cbn [fmap option_fmap option_map].
      rewrite truthy_some by done.
      rewrite (bind_pure _ _ _ _ (project_ok _ _ _ Hc)).
      unfold update, client_key. cbn [props entity_key].
      rewrite (bind_same _ _ _ _ (strict_client_put_ok _ _ _ (Hfit Hc b Hb Hne))).
      rewrite (bind_step _ _ _ _ _ _ (client_put_run _ _)).
      cbn [apply_write stored_id id_or_name kind entity_key props set_kind_map kind_map].
      erewrite bind_pure; [|apply business_dict_ok, has_fields_union, Hc].
      unfold business_view. by rewrite restrict_union.
  - rewrite (edit_business_invalid _ _ _ Hc). unfold Strict.edit_business. by rewrite Hc.
Qed.

Lemma create_review_agrees (new_id : Z) (content : gmap string json) (s : Store) :
  (forall bv, content !! "business_id" = Some bv -> exists z, bv = JInt z /\ int64 z = true) ->
  (forall u, content !! "user_id" = Some u ->
     status_code (create_review new_id content s) ∈ [201; 409] -> fits u = true) ->
  (status_code (create_review new_id content s) = 201 -> storable (review_props content)) ->
  Strict.create_review new_id content s = create_review new_id content s.
Proof.
  intros Hkey Hfu Hfit. destruct (valid_or_not required_review content) as [H|H].
  - destruct (proj1 (has_fields_lookup _ _) H "user_id") as [u Hu]; [by left|].
    destruct (proj1 (has_fields_lookup _ _) H "business_id") as [bv Hbv]; [by right; left|].
    destruct (Hkey bv Hbv) as (z & -> & Hz).
    unfold Strict.create_review. rewrite H. cbn [negb].
    rewrite (bind_pure _ _ _ _ (getitem_ok _ _ _ _ Hbv)).
    rewrite (bind_pure _ _ (client_key Business (Some (JInt z)))) by done.
    rewrite (bind_same _ _ _ _ (strict_client_get_id _ _ _ Hz)).
    rewrite (bind_pure _ _ _ _ (client_get_id _ _ _)). cbn [kind_map].
    destruct (absent_dec (business_of s (JInt z))) as [Ha|(b & Hb & Hne)].
    + rewrite (create_review_no_business _ _ _ _ H Hbv Ha).
      cbn [business_of] in Ha. by rewrite truthy_absent.
    + pose proof Hb as Hb'. cbn [business_of] in Hb'. rewrite Hb'.
      cbn [fmap option_fmap option_map]. rewrite truthy_some by done.
      rewrite (bind_pure _ _ _ _ (getitem_ok _ _ _ _ Hu)).
      rewrite (bind_pure _ _ _ _ (getitem_ok _ _ _ _ Hbv)).
      assert (fits u = true) as Hfits.
      { apply (Hfu u Hu). destruct (reviewed_dec s u (JInt z)) as [Hr|Hr].
        - rewrite (create_review_conflict _ _ _ _ _ _ H Hu Hbv Hb Hne Hr). by right; left.
        - rewrite (create_review_created _ _ _ _ _ _ H Hu Hbv Hb Hne Hr). by left. }
      rewrite strict_fetch_ok by (cbn; by rewrite Hfits, Hz).
      rewrite (bind_pure _ _ _ _ (fetch_selected _ _)).
      cbn [q_kind add_filter client_query kind_map].
      destruct (reviewed_dec s u (JInt z)) as [Hr|Hr].
      * rewrite (create_review_conflict _ _ _ _ _ _ H Hu Hbv Hb Hne Hr).
        destruct (selected _ (reviews s)) as [|[i r] l] eqn:E; [|done].
        by apply selected_reviewed in E.
      * rewrite (create_review_created _ _ _ _ _ _ H Hu Hbv Hb Hne Hr) in Hfit |- *.
        specialize (Hfit eq_refl).
        apply selected_reviewed in Hr. rewrite Hr. cbn [map].
        rewrite (bind_pure _ _ _ _ (project_ok _ _ _ H)).
        unfold update, new_entity, client_key. cbn [props entity_key].
        rewrite (right_id_L ∅ (∪)).
        rewrite (bind_pure _ _ (MkEntity (MkKey Review None) (review_props content))).
        2:{ unfold review_props, contains, getitem, setitem.
            by destruct (content !! "review_text"). }
        rewrite (bind_same _ _ _ _ (strict_client_put_new_ok _ _ _ _ Hfit)).
        rewrite (bind_step _ _ _ _ _ _ (client_put_new_run _ _ _ _)).
        rewrite (bind_pure _ _ _ _
                   (review_dict_ok _ _ _ _ (has_fields_review_props _ H))).
        by rewrite review_view_props.
  - rewrite (create_review_invalid _ _ _ H). unfold Strict.create_review. by rewrite H.
Qed.

Lemma edit_review_agrees (review_id : Z) (content : gmap string json) (s : Store) :
  int64 review_id = true ->
  (forall v r, content !! "stars" = Some v -> reviews s !! review_id = Some r -> r ≠ ∅ ->
     storable (edited content v r)) ->
  Strict.edit_review review_id content s = edit_review review_id content s.
Proof.
  intros Hid Hfit. destruct (content !! "stars") as [v|] eqn:Hv.
  - unfold Strict.edit_review, contains. rewrite Hv. cbn [negb].
    rewrite (bind_same _ _ _ _ (strict_client_get_id _ _ _ Hid)).
    rewrite (bind_pure _ _ _ _ (client_get_id _ _ _)). cbn [kind_map].
    destruct (absent_dec (reviews s !! review_id)) as [Ha|(r & Hr & Hne)].
    + rewrite (edit_review_absent _ _ _ _ Hv Ha). by rewrite truthy_absent.
    + rewrite (edit_review_run _ _ _ _ _ Hv Hr Hne).
      rewrite Hr. cbn [fmap option_fmap option_map].
      rewrite truthy_some by done.
      rewrite (bind_pure _ _ _ _ (getitem_ok _ _ _ _ Hv)).
      rewrite (bind_pure _ _
                 (MkEntity (MkKey Review (Some (JInt review_id))) (edited content v r))).
      2:{ unfold edited, getitem, setitem, client_key. cbn [props entity_key].
          by destruct (content !! "review_text"). }
      rewrite (bind_same _ _ _ _ (strict_client_put_ok _ _ _ (Hfit v r eq_refl Hr Hne))).
      rewrite (bind_step _ _ _ _ _ _ (client_put_run _ _)).
      cbn [apply_write stored_id id_or_name kind entity_key props set_kind_map kind_map].
      assert (read_only (response <- review_dict
                (MkEntity (MkKey Review (Some (JInt review_id))) (edited content v r)) ;;
              ret (jsonify response 200))) as Hro.
      { apply read_only_bind; [apply read_only_review_dict|]. intros ?. apply read_only_ret. }
      destruct (Hro (MkStore (businesses s) (<[review_id := edited content v r]> (reviews s))))
        as [Hf Ht]. by rewrite Hf, Ht.
  - rewrite (edit_review_invalid _ _ _ Hv). unfold Strict.edit_review, contains. by rewrite Hv.
Qed.

(** A store Datastore holds and a request within the limits: the
    handler over the client with its limits does what the handler above
    does. *)
Lemma handle_agrees (new_id : Z) (req : Request) (s : Store) :
  store_fits s -> Strict.within_limits new_id req ->
  Strict.handle new_id req s = handle new_id req s.
Proof.
  intros [Hbs Hrs] [Hnew Hreq].
  destruct req as [content|id| |id content|id|owner|content|id|id content|id|user];
    cbn [Strict.handle handle]; cbn in Hreq; try done.
  - apply create_business_agrees. intros _. by apply storable_restrict.
  - by apply get_business_agrees, valid_id_int64.
  - destruct Hreq as [Hid Hfit]. apply edit_business_agrees; [by apply valid_id_int64|].
    intros _ b Hb _. apply storable_union; [by apply storable_restrict | by apply (Hbs id)].
  - by apply delete_business_agrees, valid_id_int64.
  - by apply list_owner_businesses_agrees, nonneg_int64.
  - destruct Hreq as [Hfit Hkey]. apply create_review_agrees.
    + intros bv Hbv. destruct (Hkey bv Hbv) as (z & -> & Hz). exists z.
      split; [done | by apply valid_id_int64].
    + intros u Hu _.
      apply (fit_lookup ("review_text" :: required_review) content "user_id" u Hfit);
        [by right; left | done].
    + intros _. by apply storable_review_props.
  - by apply get_review_agrees, valid_id_int64.
  - destruct Hreq as [Hid Hfit]. apply edit_review_agrees; [by apply valid_id_int64|].
    intros v r Hv Hr _. apply storable_edited; [by apply (Hrs id) | done..].
  - by apply delete_review_agrees, valid_id_int64.
  - by apply list_user_reviews_agrees, nonneg_int64.
Qed.

(** ** Outside the limits *)

Lemma strict_create_review_bad_key (new_id : Z) (content : gmap string json) (bv : json)
    (s : Store) :
  has_fields required_review content ->
  content !! "business_id" = Some bv ->
  match bv with JFloat _ | JNull | JArr _ | JObj _ => True | _ => False end ->
  Strict.create_review new_id content s = MkRun (inl ValueError) s [].
Proof.
  intros H Hbv Hbad. unfold Strict.create_review. rewrite H. cbn [negb].
  rewrite (bind_pure _ _ _ _ (getitem_ok _ _ _ _ Hbv)).
  apply bind_raise. by destruct bv.
Qed.

Lemma strict_get_out_of_range (id : Z) (s : Store) :
  int64 id = false ->
  Strict.get_business id s = MkRun (inl ValueError) s [] /\
  Strict.get_review id s = MkRun (inl ValueError) s [] /\
  Strict.delete_business id s = MkRun (inl ValueError) s [] /\
  Strict.delete_review id s = MkRun (inl ValueError) s [].
Proof.
  intros H. split_and!; apply bind_raise; by apply strict_client_get_out.
Qed.

Lemma strict_create_review_invalid (new_id : Z) (content : gmap string json) (s : Store) :
  forallb (contains content) required_review = false ->
  Strict.create_review new_id content s = MkRun (inr (error missing_attributes 400)) s [].
Proof. intros H. unfold Strict.create_review. by rewrite H. Qed.

Lemma int_key_ok (content : gmap string json) (z : Z) :
  content !! "business_id" = Some (JInt z) -> valid_id z ->
  forall bv, content !! "business_id" = Some bv -> exists z', bv = JInt z' /\ int64 z' = true.
Proof.
  intros Hbv Hz bv Hbv'. exists z. split; [congruence | by apply valid_id_int64].
Qed.

Lemma create_review_agrees_fit (new_id : Z) (content : gmap string json) (z : Z) (s : Store) :
  content !! "business_id" = Some (JInt z) -> valid_id z ->
  fit ("review_text" :: required_review) content = true ->
  Strict.create_review new_id content s = create_review new_id content s.
Proof.
  intros Hbv Hz Hfit. apply create_review_agrees.
  - by apply (int_key_ok _ z).
  - intros u Hu _.
    apply (fit_lookup ("review_text" :: required_review) content "user_id" u Hfit);
      [by right; left | done].
  - intros _. by apply storable_review_props.
Qed.

(** * The claims the limits bear on *)

(** C3. The order of the checks of [create_review], over the client
    with its limits, for every payload and every store of the data
    model: a missing [user_id], [business_id] or [stars] is answered
    400; otherwise, for a [business_id] that is an integer id of
    Datastore, no business stored under it is answered 404; otherwise a
    stored review with the same (user_id, business_id), the [user_id]
    fitting, is answered 409; none of the three writes anything.  Only
    otherwise, and when the values to store fit, is a review put under
    the generated id, with [user_id], [business_id] and [stars] copied
    from the payload and [review_text] exactly when the payload has it,
    and answered 201.  A [business_id] that is a float, null, an array
    or an object stops the handler on [ValueError] at [client.key],
    before any lookup. *)
Theorem strict_create_review_contract (new_id : Z) (content : gmap string json) (s : Store) :
  store_ok s ->
  let run := Strict.create_review new_id content s in
  ((exists f, f ∈ required_review /\ content !! f = None) ->
     run = MkRun (inr (error missing_attributes 400)) s []) /\
  (forall (u : json) (z : Z),
     has_fields required_review content ->
     content !! "user_id" = Some u -> content !! "business_id" = Some (JInt z) ->
     valid_id z ->
     (businesses s !! z = None ->
        run = MkRun (inr (error no_business 404)) s []) /\
     (is_Some (businesses s !! z) -> fits u = true -> reviewed s u (JInt z) ->
        run = MkRun (inr (error already_reviewed 409)) s []) /\
     (is_Some (businesses s !! z) -> ~ reviewed s u (JInt z) ->
      fit ("review_text" :: required_review) content = true ->
        exists p : gmap string json,
          run = MkRun (inr (jsonify (review_view new_id content) 201))
                  (MkStore (businesses s) (<[new_id := p]> (reviews s)))
                  [WPut (MkKey Review (Some (JInt new_id))) p] /\
          forall f, p !! f =
            if decide (f ∈ ["review_text"; "user_id"; "business_id"; "stars"])
            then content !! f else None)) /\
  (forall bv : json,
     has_fields required_review content -> content !! "business_id" = Some bv ->
     match bv with JFloat _ | JNull | JArr _ | JObj _ => True | _ => False end ->
     run = MkRun (inl ValueError) s []).
Proof.
  intros Hok run. subst run. split_and!.
  - intros H%missing_field. by apply strict_create_review_invalid.
  - intros u z Hc Hu Hbv Hz.
    pose proof (int_key_ok _ _ Hbv Hz) as Hkey.
    destruct (create_review_contract new_id content s Hok) as [_ Hold].
    destruct (Hold u (JInt z) Hc Hu Hbv) as (H404 & H409 & H201).
    cbn [business_of] in H404, H409, H201. split_and!.
    + intros Hb. rewrite create_review_agrees; [by apply H404 | done | |].
      * intros u' _ Hin. rewrite (H404 Hb) in Hin. exfalso.
        repeat (apply elem_of_cons in Hin as [Hin|Hin]; [discriminate|]).
        by apply not_elem_of_nil in Hin.
      * rewrite (H404 Hb). discriminate.
    + intros Hb Hfu Hr. rewrite create_review_agrees; [by apply H409 | done | |].
      * intros u' Hu' _. congruence.
      * rewrite (H409 Hb Hr). discriminate.
    + intros Hb Hr Hfit. rewrite (create_review_agrees_fit _ _ z) by done.
      by apply H201.
  - intros bv Hc Hbv Hbad. by apply (strict_create_review_bad_key _ _ bv).
Qed.

Lemma strict_create_review_contract_witness :
  Strict.create_review 4 praise one_review =
    MkRun (inr (error already_reviewed 409)) one_review [] /\
  Strict.create_review 4 (<["business_id" := JInt 999]> praise) one_review =
    MkRun (inr (error no_business 404)) one_review [] /\
  status_code (Strict.create_review 4 (<["user_id" := JInt 10]> praise) one_review) = 201.
Proof.
  assert (store_ok one_review) as Hok
    by (apply (bool_decide_unpack _); vm_compute; exact I).
  split_and!.
  - destruct (strict_create_review_contract 4 praise one_review Hok) as (_ & H & _).
    destruct (H (JInt 9) 7 eq_refl eq_refl eq_refl) as (_ & H409 & _); [done|].
    apply H409; [by eexists | reflexivity |]. exists 3, praise. split_and!; reflexivity.
  - destruct (strict_create_review_contract 4 (<["business_id" := JInt 999]> praise)
                one_review Hok) as (_ & H & _).
    destruct (H (JInt 9) 999 eq_refl eq_refl eq_refl) as (H404 & _); [done|].
    by apply H404.
  - destruct (strict_create_review_contract 4 (<["user_id" := JInt 10]> praise)
                one_review Hok) as (_ & H & _).
    destruct (H (JInt 10) 7 eq_refl eq_refl eq_refl) as (_ & _ & H201); [done|].
    destruct H201 as (p & Hp & _).
    + by eexists.
    + intros (i & r & Hr & Hu & _). unfold one_review in Hr. cbn [reviews] in Hr.
      destruct (decide (i = 3)) as [->|Hi].
      * rewrite lookup_singleton_eq in Hr. injection Hr as <-. discriminate Hu.
      * by rewrite lookup_singleton_ne in Hr.
    + reflexivity.
    + unfold status_code. by rewrite Hp.
Defined.

(** The claim fails at a [business_id] of null: the three fields are
    there and no business is stored for null, yet the answer is not 404,
    the handler stops on [ValueError]. *)
Lemma create_review_null_business_id :
  has_fields required_review (<["business_id" := JNull]> praise) /\
  Strict.create_review 4 (<["business_id" := JNull]> praise) one_review =
    MkRun (inl ValueError) one_review [] /\
  status_code (Strict.create_review 4 (<["business_id" := JNull]> praise) one_review) <> 404.
Proof. split_and!; [reflexivity | reflexivity | discriminate]. Qed.

(** C4. Partial update of [edit_review], over the client with its
    limits: for a review [r] stored under an id of Datastore, itself
    storable, and a payload with [stars] whose [stars] and [review_text]
    fit, the review put back has the payload's [stars]; its
    [review_text] is the payload's when the payload has one and that of
    [r] (or none) otherwise; [user_id], [business_id] and every other
    property are those of [r]; the answer is 200 with the edited
    review. *)
Theorem strict_edit_review_partial_update (review_id : Z) (content : gmap string json)
    (v : json) (r : gmap string json) (s : Store) :
  valid_id review_id ->
  reviews s !! review_id = Some r -> has_fields required_review r -> storable r ->
  content !! "stars" = Some v -> fit ["stars"; "review_text"] content = true ->
  let run := Strict.edit_review review_id content s in
  exists r' : gmap string json,
    run = MkRun (inr (jsonify (review_view review_id r') 200))
            (MkStore (businesses s) (<[review_id := r']> (reviews s)))
            [WPut (MkKey Review (Some (JInt review_id))) r'] /\
    r' !! "stars" = Some v /\
    r' !! "review_text" =
      match content !! "review_text" with
      | Some t => Some t
      | None => r !! "review_text"
      end /\
    r' !! "user_id" = r !! "user_id" /\
    r' !! "business_id" = r !! "business_id" /\
    (forall f, f ≠ "stars" -> f ≠ "review_text" -> r' !! f = r !! f).
Proof.
  intros Hid Hr Hok Hst Hv Hfit run. subst run.
  rewrite edit_review_agrees.
  - by apply edit_review_partial_update.
  - by apply valid_id_int64.
  - intros v' r' Hv' Hr' _.
    assert (r' = r) as -> by congruence. by apply storable_edited.
Qed.

Lemma strict_edit_review_partial_update_witness :
  exists r' : gmap string json,
    reviews (final (Strict.edit_review 3 {[ "stars" := JInt 4 ]} one_review)) !! 3 = Some r' /\
    r' !! "stars" = Some (JInt 4) /\ r' !! "review_text" = Some (JStr "great") /\
    r' !! "user_id" = Some (JInt 9) /\ r' !! "business_id" = Some (JInt 7).
Proof.
  destruct (strict_edit_review_partial_update 3 {[ "stars" := JInt 4 ]} (JInt 4) praise
              one_review) as (r' & Hrun & Hs & Ht & Hu & Hb & _).
  - done.
  - reflexivity.
  - reflexivity.
  - apply (bool_decide_unpack _). vm_compute. exact I.
  - reflexivity.
  - reflexivity.
  - exists r'. rewrite Hrun. cbn [final reviews]. rewrite lookup_insert_eq.
    by split_and!.
Defined.

(** The claim fails at [stars] below the [int64]s: the review is stored
    and the payload has [stars], yet [client.put] raises [ValueError]
    and the review stays as it was. *)
Lemma edit_review_stars_below_int64 :
  reviews one_review !! 3 = Some praise /\
  Strict.edit_review 3 {[ "stars" := JInt (-9223372036854775809) ]} one_review =
    MkRun (inl ValueError) one_review [].
Proof. split; reflexivity. Qed.

(** C7. Create, then get, over the client with its limits and a
    generated id of Datastore.  For a payload with the six business
    fields, all fitting, [create_business] answers 201 with the
    generated id and the six fields as the payload has them, and
    [get_business] of that id then answers 200 with the same body.  For
    a payload with the three review fields, these and [review_text]
    fitting, a stored business under its integer [business_id] and no
    stored review for its (user_id, business_id), [create_review]
    answers 201 with the generated id, the three fields as the payload
    has them, and [review_text] exactly when the payload has it, and
    [get_review] of that id then answers 200 with the same body. *)
Theorem strict_create_then_get (new_id : Z) (content : gmap string json) (s : Store) :
  valid_id new_id ->
  (has_fields required_business content -> fit required_business content = true ->
   let run := Strict.create_business new_id content s in
   exists resp : Response,
     outcome run = inr resp /\ status resp = 201 /\
     body_field resp "id" = Some (JInt new_id) /\
     (forall f, f ∈ required_business -> body_field resp f = content !! f) /\
     Strict.get_business new_id (final run) =
       MkRun (inr (MkResponse (body resp) 200)) (final run) []) /\
  (store_ok s -> has_fields required_review content ->
   fit ("review_text" :: required_review) content = true ->
   forall (u : json) (z : Z),
     content !! "user_id" = Some u -> content !! "business_id" = Some (JInt z) ->
     valid_id z -> is_Some (businesses s !! z) -> ~ reviewed s u (JInt z) ->
     let run := Strict.create_review new_id content s in
     exists resp : Response,
       outcome run = inr resp /\ status resp = 201 /\
       body_field resp "id" = Some (JInt new_id) /\
       (forall f, f ∈ required_review -> body_field resp f = content !! f) /\
       body_field resp "review_text" = content !! "review_text" /\
       Strict.get_review new_id (final run) =
         MkRun (inr (MkResponse (body resp) 200)) (final run) []).
Proof.
  intros Hid. destruct (create_then_get new_id content s) as [Hb Hr]. split.
  - intros Hc Hfit run. subst run.
    rewrite create_business_agrees by (intros _; by apply storable_restrict).
    rewrite get_business_agrees by (by apply valid_id_int64).
    by apply Hb.
  - intros Hok Hc Hfit u z Hu Hbv Hz Hsome Hnr run. subst run.
    rewrite (create_review_agrees_fit _ _ z) by done.
    rewrite get_review_agrees by (by apply valid_id_int64).
    by apply (Hr Hok Hc u (JInt z)).
Qed.

Lemma strict_create_then_get_witness :
  (exists resp : Response,
     outcome (Strict.create_business 8 acme one_business) = inr resp /\
     body_field resp "name" = Some (JStr "Acme") /\
     Strict.get_business 8 (final (Strict.create_business 8 acme one_business)) =
       MkRun (inr (MkResponse (body resp) 200))
         (final (Strict.create_business 8 acme one_business)) []) /\
  (exists resp : Response,
     outcome (Strict.create_review 3 praise one_business) = inr resp /\
     body_field resp "review_text" = Some (JStr "great") /\
     Strict.get_review 3 (final (Strict.create_review 3 praise one_business)) =
       MkRun (inr (MkResponse (body resp) 200))
         (final (Strict.create_review 3 praise one_business)) []).
Proof.
  destruct (strict_create_then_get 8 acme one_business) as [H1 _]; [done|].
  destruct (strict_create_then_get 3 praise one_business) as [_ H2]; [done|].
  split.
  - destruct (H1 eq_refl eq_refl) as (resp & Ho & _ & _ & Hf & Hg).
    exists resp. split_and!; [done| |done].
    rewrite (Hf "name"); [reflexivity|]. by repeat (try (by left); right).
  - destruct (H2 ltac:(apply (bool_decide_unpack _); vm_compute; exact I)
                eq_refl eq_refl (JInt 9) 7 eq_refl eq_refl)
      as (resp & Ho & _ & _ & _ & Ht & Hg).
    + done.
    + by eexists.
    + intros (i & r & Hr & _). unfold one_business in Hr. cbn [reviews] in Hr.
      by rewrite lookup_empty in Hr.
    + exists resp. split_and!; [done| |done]. by rewrite Ht.
Defined.

(** The claim fails at an [owner_id] above the [int64]s: the payload has
    the six fields, yet [client.put] raises [ValueError]; nothing is
    returned and nothing stored. *)
Lemma create_business_owner_id_above_int64 :
  has_fields required_business (<["owner_id" := JInt 9223372036854775808]> acme) /\
  Strict.create_business 8 (<["owner_id" := JInt 9223372036854775808]> acme) empty_store =
    MkRun (inl ValueError) empty_store [].
Proof. split; reflexivity. Qed.

(** C8. An id of Datastore under which nothing is stored, over the
    client with its limits: get, edit (with a payload that passes
    validation) and delete each answer 404, for businesses and for
    reviews, leave the store as it was and write nothing.  An id from
    [2^63] on is not looked up: get and delete stop on [ValueError] at
    [client.get]. *)
Theorem strict_not_found (id : Z) (s : Store) :
  (valid_id id -> businesses s !! id = None ->
   Strict.get_business id s = MkRun (inr (error no_business 404)) s [] /\
   (forall content, has_fields required_business content ->
      Strict.edit_business id content s = MkRun (inr (error no_business 404)) s []) /\
   Strict.delete_business id s = MkRun (inr (error no_business 404)) s []) /\
  (valid_id id -> reviews s !! id = None ->
   Strict.get_review id s = MkRun (inr (error no_review 404)) s [] /\
   (forall content, is_Some (content !! "stars") ->
      Strict.edit_review id content s = MkRun (inr (error no_review 404)) s []) /\
   Strict.delete_review id s = MkRun (inr (error no_review 404)) s []) /\
  (int64_bound <= id ->
   Strict.get_business id s = MkRun (inl ValueError) s [] /\
   Strict.get_review id s = MkRun (inl ValueError) s [] /\
   Strict.delete_business id s = MkRun (inl ValueError) s [] /\
   Strict.delete_review id s = MkRun (inl ValueError) s []).
Proof.
  destruct (not_found id s) as [Hb Hr]. split_and!.
  - intros Hid%valid_id_int64 H. destruct (Hb H) as (Hg & He & Hd). split_and!.
    + by rewrite get_business_agrees.
    + intros content Hc. rewrite edit_business_agrees; [by apply He | done |].
      intros _ b Hsome. congruence.
    + by rewrite delete_business_agrees.
  - intros Hid%valid_id_int64 H. destruct (Hr H) as (Hg & He & Hd). split_and!.
    + by rewrite get_review_agrees.
    + intros content Hc. rewrite edit_review_agrees; [by apply He | done |].
      intros v r _ Hsome. congruence.
    + by rewrite delete_review_agrees.
  - intros H. apply strict_get_out_of_range. unfold int64.
    apply andb_false_iff. right. apply Z.ltb_ge. exact H.
Qed.

Lemma strict_not_found_witness :
  Strict.edit_business 5 acme one_review = MkRun (inr (error no_business 404)) one_review [] /\
  Strict.delete_review 5 one_review = MkRun (inr (error no_review 404)) one_review [] /\
  Strict.delete_review 9223372036854775808 one_review = MkRun (inl ValueError) one_review [].
Proof.
  destruct (strict_not_found 5 one_review) as (Hb & Hr & _).
  destruct (strict_not_found 9223372036854775808 one_review) as (_ & _ & Hout).
  split_and!.
  - destruct (Hb ltac:(done) eq_refl) as (_ & He & _). by apply He.
  - by destruct (Hr ltac:(done) eq_refl) as (_ & _ & Hd).
  - by destruct (Hout ltac:(done)) as (_ & _ & _ & Hd).
Defined.

(** The claim fails at the id [2^63]: nothing is stored under it, yet
    [get_business] is not answered 404, it stops on [ValueError]. *)
Lemma get_business_id_above_int64 :
  businesses empty_store !! 9223372036854775808 = None /\
  Strict.get_business 9223372036854775808 empty_store = MkRun (inl ValueError) empty_store [] /\
  status_code (Strict.get_business 9223372036854775808 empty_store) <> 404.
Proof. split_and!; [reflexivity | reflexivity | discriminate]. Qed.

(** C9. [stars] is checked for presence only by the handlers, over the
    client with its limits: whatever JSON value [v] that fits the
    payload has for it (a string, a float, a boolean, null, a negative
    integer, any integer of the [int64]s), [create_review] (the other
    checks passing, the other stored values fitting) and [edit_review]
    (the review being stored, under an id of Datastore, and storable)
    accept it, store [v] as the review's [stars] and answer with [v] as
    [stars]. *)
Theorem strict_stars_not_validated (v : json) (id : Z) (content : gmap string json)
    (s : Store) :
  store_ok s -> store_fits s -> valid_id id ->
  content !! "stars" = Some v -> fits v = true ->
  (forall (u : json) (z : Z),
     content !! "user_id" = Some u -> content !! "business_id" = Some (JInt z) ->
     valid_id z -> fit ["review_text"; "user_id"] content = true ->
     is_Some (businesses s !! z) -> ~ reviewed s u (JInt z) ->
     let run := Strict.create_review id content s in
     exists (resp : Response) (p : gmap string json),
       outcome run = inr resp /\ status resp = 201 /\
       body_field resp "stars" = Some v /\
       reviews (final run) !! id = Some p /\ p !! "stars" = Some v) /\
  (is_Some (reviews s !! id) -> fit ["review_text"] content = true ->
   let run := Strict.edit_review id content s in
   exists (resp : Response) (p : gmap string json),
     outcome run = inr resp /\ status resp = 200 /\
     body_field resp "stars" = Some v /\
     reviews (final run) !! id = Some p /\ p !! "stars" = Some v).
Proof.
  intros Hok [_ Hfits] Hid Hv Hfv.
  destruct (stars_not_validated v id content s Hok Hv) as [Hc He]. split.
  - intros u z Hu Hbv Hz Hfit Hsome Hnr run. subst run.
    rewrite (create_review_agrees_fit _ _ z); [by apply (Hc u (JInt z)) | done..|].
    apply fit_all. intros f w Hf Hw.
    apply elem_of_cons in Hf as [->|Hf];
      [apply (fit_lookup _ _ "review_text" w Hfit); [by left | done]|].
    apply elem_of_cons in Hf as [->|Hf];
      [apply (fit_lookup _ _ "user_id" w Hfit); [by right; left | done]|].
    apply elem_of_cons in Hf as [->|Hf];
      [assert (w = JInt z) as -> by congruence; by apply valid_id_int64|].
    apply elem_of_cons in Hf as [->|Hf]; [congruence|].
    by apply not_elem_of_nil in Hf.
  - intros [r Hr] Hfit run. subst run.
    rewrite edit_review_agrees; [by apply He; eexists | by apply valid_id_int64 |].
    intros v' r' Hv' Hr' _. apply storable_edited; [by apply (Hfits id) | done |].
    apply fit_all. intros f w Hf Hw.
    apply elem_of_cons in Hf as [->|Hf]; [congruence|].
    apply elem_of_cons in Hf as [->|Hf];
      [apply (fit_lookup _ _ "review_text" w Hfit); [by left | done]|].
    by apply not_elem_of_nil in Hf.
Qed.

Lemma strict_stars_not_validated_witness :
  (exists (resp : Response) (p : gmap string json),
     outcome (Strict.create_review 3 (<["stars" := JInt (-40)]> praise) one_business)
       = inr resp /\
     status resp = 201 /\ body_field resp "stars" = Some (JInt (-40)) /\
     reviews (final (Strict.create_review 3 (<["stars" := JInt (-40)]> praise) one_business))
       !! 3 = Some p /\
     p !! "stars" = Some (JInt (-40))) /\
  (exists (resp : Response) (p : gmap string json),
     outcome (Strict.edit_review 3 {[ "stars" := JStr "five" ]} one_review) = inr resp /\
     status resp = 200 /\ body_field resp "stars" = Some (JStr "five") /\
     reviews (final (Strict.edit_review 3 {[ "stars" := JStr "five" ]} one_review)) !! 3
       = Some p /\
     p !! "stars" = Some (JStr "five")).
Proof.
  split.
  - destruct (strict_stars_not_validated (JInt (-40)) 3 (<["stars" := JInt (-40)]> praise)
                one_business) as [H _].
    + apply (bool_decide_unpack _). vm_compute. exact I.
    + apply (bool_decide_unpack _). vm_compute. exact I.
    + done.
    + reflexivity.
    + reflexivity.
    + apply (H (JInt 9) 7); [reflexivity | reflexivity | done | reflexivity | by eexists |].
      intros (i & r & Hr & _). unfold one_business in Hr. cbn [reviews] in Hr.
      by rewrite lookup_empty in Hr.
  - destruct (strict_stars_not_validated (JStr "five") 3 {[ "stars" := JStr "five" ]}
                one_review) as [_ H].
    + apply (bool_decide_unpack _). vm_compute. exact I.
    + apply (bool_decide_unpack _). vm_compute. exact I.
    + done.
    + reflexivity.
    + reflexivity.
    + apply H; [by eexists | reflexivity].
Defined.

(** The claim fails at [stars] of [2^63] on create and of [-2^63 - 1]
    on edit: the key is present and the other checks pass, yet
    [client.put] raises [ValueError] and nothing is stored or changed. *)
Lemma stars_outside_int64 :
  Strict.create_review 3 (<["stars" := JInt 9223372036854775808]> praise) one_business =
    MkRun (inl ValueError) one_business [] /\
  Strict.edit_review 3 {[ "stars" := JInt (-9223372036854775809) ]} one_review =
    MkRun (inl ValueError) one_review [].
Proof. split; reflexivity. Qed.

(** * Further properties the limits bear on *)

Lemma effect_store_fits (new_id : Z) (req : Request) (c : Z) (s s' : Store)
    (t : list Write) :
  store_fits s -> Strict.within_limits new_id req -> effect s req c s' t -> store_fits s'.
Proof.
  intros [Hbs Hrs] [_ Hreq] He.
  destruct He as [req c|id content Hc|id content b Hc Hb|id b Hb
                 |id content u bv b Hc Hu Hbv Hb Hnr|c id content v r Hcode Hv Hr|id r Hr];
    cbn in Hreq; split; cbn [businesses reviews]; try done.
  - apply map_Forall_insert_2; [by apply storable_restrict | done].
  - destruct Hreq as [_ Hfit]. apply map_Forall_insert_2; [|done].
    apply storable_union; [by apply storable_restrict | by apply (Hbs id)].
  - by apply map_Forall_delete.
  - intros i r [Hi _]%map_lookup_filter_Some. by apply (Hrs i).
  - destruct Hreq as [Hfit _]. apply map_Forall_insert_2; [|done].
    by apply storable_review_props.
  - destruct Hreq as [_ Hfit]. apply map_Forall_insert_2; [|done].
    apply storable_edited; [by apply (Hrs id) | done..].
  - by apply map_Forall_delete.
Qed.

Lemma strict_reachable_fits (s : Store) : Strict.reachable s -> reachable s /\ store_fits s.
Proof.
  induction 1 as [|s new_id req Hs [IH1 IH2] Hid Hlim].
  - split; [apply reachable_empty|]. split; apply map_Forall_empty.
  - rewrite (handle_agrees _ _ _ IH2 Hlim). split; [by apply reachable_handle|].
    eapply effect_store_fits; [exact IH2 | exact Hlim | apply handle_effect].
Qed.

(** X7. In a store of the data model that Datastore holds, a request
    within the limits of the client (ids of Datastore, values to store
    that fit, an integer [business_id]) does not stop a handler on an
    exception, and each handler answers one of the statuses of its
    [return] statements: 201 or 400 for [create_business]; 200 or 404
    for the two gets; 200 for the three lists; 200, 400 or 404 for the
    two edits; 204 or 404 for the two deletes; 201, 400, 404 or 409 for
    [create_review]. *)
Theorem strict_handle_statuses (new_id : Z) (req : Request) (s : Store) :
  store_ok s -> store_fits s -> Strict.within_limits new_id req ->
  status_code (Strict.handle new_id req s) ∈ statuses req /\
  exists resp, outcome (Strict.handle new_id req s) = inr resp.
Proof.
  intros Hok Hfits Hlim. rewrite (handle_agrees _ _ _ Hfits Hlim).
  by apply handle_statuses.
Qed.

Lemma strict_handle_statuses_witness :
  status_code (Strict.handle 4 (PostReviews praise) one_review) ∈ [201; 400; 404; 409].
Proof.
  apply (strict_handle_statuses 4 (PostReviews praise) one_review).
  - apply (bool_decide_unpack _). vm_compute. exact I.
  - apply (bool_decide_unpack _). vm_compute. exact I.
  - split; [done|]. split; [reflexivity|].
    intros bv [= <-]. by exists 7.
Defined.

(** X8. No orphan review while the requests are within the limits of
    the client: in every store reachable from the empty store by such
    requests, each review's [business_id] is the integer id of a stored
    business; and every such request keeps it so in a store Datastore
    holds where it holds ([create_review] looks the business up before
    it writes, [edit_review] never touches [business_id],
    [delete_business] deletes the reviews of the business with it). *)
Theorem strict_no_orphan_review (s : Store) :
  (Strict.reachable s -> refs_ok s) /\
  (refs_ok s -> store_fits s ->
   forall (new_id : Z) (req : Request),
     Strict.within_limits new_id req -> refs_ok (final (Strict.handle new_id req s))).
Proof.
  split.
  - intros [H _]%strict_reachable_fits. by apply no_orphan_review.
  - intros Hrefs Hfits new_id req Hlim. rewrite (handle_agrees _ _ _ Hfits Hlim).
    by apply no_orphan_review.
Qed.

Lemma strict_no_orphan_review_witness :
  refs_ok (final (Strict.handle 7 (DeleteBusiness 7) one_review)) /\
  refs_ok (final (Strict.handle 7 (PostBusinesses acme) empty_store)).
Proof.
  split.
  - apply (proj2 (strict_no_orphan_review one_review)).
    + intros i r Hi. unfold one_review in Hi. cbn [reviews] in Hi.
      apply lookup_singleton_Some in Hi as [_ <-]. exists 7. split; [reflexivity|].
      by eexists.
    + apply (bool_decide_unpack _). vm_compute. exact I.
    + by split.
  - apply (proj1 (strict_no_orphan_review
                    (final (Strict.handle 7 (PostBusinesses acme) empty_store)))).
    apply Strict.reachable_step; [apply Strict.reachable_start | reflexivity |].
    by split.
Defined.

(** X10. [create_business], given a payload whose six required fields
    fit, stores the six required fields and nothing else of the
    payload, under the generated id, and answers 201 whatever is
    already stored (no duplicate check); every business under another
    id and every review are left as they were. *)
Theorem strict_create_business_stores_six (new_id : Z) (content : gmap string json)
    (s : Store) :
  has_fields required_business content -> fit required_business content = true ->
  let run := Strict.create_business new_id content s in
  status_code run = 201 /\
  (exists p : gmap string json,
     businesses (final run) !! new_id = Some p /\
     forall f, p !! f = if decide (f ∈ required_business) then content !! f else None) /\
  (forall j, j ≠ new_id -> businesses (final run) !! j = businesses s !! j) /\
  reviews (final run) = reviews s.
Proof.
  intros Hc Hfit run. subst run.
  rewrite create_business_agrees by (intros _; by apply storable_restrict).
  by apply create_business_stores_six.
Qed.

Lemma strict_create_business_stores_six_witness :
  exists p : gmap string json,
    businesses (final (Strict.create_business 8 (<["phone" := JStr "555"]> acme) one_review))
      !! 8 = Some p /\
    p !! "phone" = None /\ p !! "name" = Some (JStr "Acme").
Proof.
  destruct (strict_create_business_stores_six 8 (<["phone" := JStr "555"]> acme) one_review)
    as (_ & (p & Hp & Hf) & _).
  - reflexivity.
  - reflexivity.
  - exists p. split; [exact Hp|]. rewrite !Hf. split; reflexivity.
Defined.

(** X16. Delete, then create again, within the limits of the client:
    where a user's review of a business is stored under an id of
    Datastore (so that [create_review] for the pair is answered 409),
    after [delete_review] of that review a [create_review] for the same
    pair, with values that fit, is answered 201, as the 409 message
    says. *)
Theorem strict_recreate_after_delete (review_id new_id : Z) (r content : gmap string json)
    (u : json) (z : Z) (s : Store) :
  store_ok s -> unique_reviews s ->
  valid_id review_id -> valid_id z ->
  reviews s !! review_id = Some r ->
  r !! "user_id" = Some u -> r !! "business_id" = Some (JInt z) ->
  has_fields required_review content ->
  fit ("review_text" :: required_review) content = true ->
  content !! "user_id" = Some u -> content !! "business_id" = Some (JInt z) ->
  is_Some (businesses s !! z) ->
  Strict.create_review new_id content s = MkRun (inr (error already_reviewed 409)) s [] /\
  status_code (Strict.create_review new_id content
                 (final (Strict.delete_review review_id s))) = 201.
Proof.
  intros Hok Huniq Hid Hz Hr Hru Hrb Hc Hfit Hu Hbv Hsome.
  destruct (recreate_after_delete review_id new_id r content u (JInt z) s)
    as [H409 H201]; try done.
  rewrite delete_review_agrees by (by apply valid_id_int64).
  by rewrite !(create_review_agrees_fit _ _ z) by done.
Qed.

Lemma strict_recreate_after_delete_witness :
  status_code (Strict.create_review 4 praise (final (Strict.delete_review 3 one_review))) = 201.
Proof.
  apply (strict_recreate_after_delete 3 4 praise praise (JInt 9) 7 one_review);
    try reflexivity.
  - apply (bool_decide_unpack _). vm_compute. exact I.
  - intros i j ri rj Hi Hj _ _. unfold one_review in Hi, Hj. cbn [reviews] in Hi, Hj.
    apply lookup_singleton_Some in Hi as [<- _].
    by apply lookup_singleton_Some in Hj as [<- _].
  - unfold valid_id, int64_bound. lia.
  - unfold valid_id, int64_bound. lia.
  - by eexists.
Defined.
